(** * Adzuna job-search MCP server: request dispatcher and tool wrappers

    A shallow embedding of [server.py]: the module start-up check on the
    credentials, [get_auth_params], [make_request] and the seven tool
    functions, followed by the properties of the parameter mapping, of the
    endpoint path and of the error mapping. *)

From Stdlib Require Import ZArith String Ascii PrimFloat.
From Stdlib Require Import DecimalString DecimalPos DecimalZ.
From stdpp Require Import gmap strings list fin_maps.

#[local] Set Warnings "-register-all".
#[local] Open Scope Z_scope.

(** ** Python values *)

(** The values that flow through the server: tool arguments, the entries of
    a parameter mapping and the result of [response.json()].  A [dict] with
    string keys is a finite map. *)
Inductive pyval : Type :=
| PNone
| PBool (b : bool)
| PInt (z : Z)
| PFloat (f : float)
| PStr (s : string)
| PList (l : list pyval)
| PDict (d : gmap string pyval).

(** Optional arguments as Python sees them: [None] or the value. *)
Definition of_ostr (o : option string) : pyval :=
  match o with Some s => PStr s | None => PNone end.

Definition of_oint (o : option Z) : pyval :=
  match o with Some z => PInt z | None => PNone end.

Definition of_obool (o : option bool) : pyval :=
  match o with Some b => PBool b | None => PNone end.

Definition of_odict (o : option (gmap string pyval)) : pyval :=
  match o with Some d => PDict d | None => PNone end.

Definition str_is_empty (s : string) : bool :=
  match s with EmptyString => true | String _ _ => false end.

(** Truth value testing, as [if x:] and [not x] do it. *)
Definition truthy (v : pyval) : bool :=
  match v with
  | PNone => false
  | PBool b => b
  | PInt z => negb (Z.eqb z 0)
  | PFloat f => negb (PrimFloat.eqb f PrimFloat.zero)
  | PStr s => negb (str_is_empty s)
  | PList l => negb (Nat.eqb (length l) 0)
  | PDict d => negb (Nat.eqb (size d) 0)
  end.

(** [str(n)] for an integer: the decimal numeral, with a leading minus sign
    for a negative one. *)
Definition str_int (z : Z) : string := NilZero.string_of_int (Z.to_int z).

(** Reading a decimal numeral back, as [int(s)] does on the output of
    [str]. *)
Definition int_str (s : string) : option Z :=
  Z.of_int <$> NilZero.int_of_string s.

(** Python's [x in s] on strings, as a proposition. *)
Definition contains (needle hay : string) : Prop :=
  ∃ pre post, hay = pre +:+ needle +:+ post.

(** ** Exceptions and results *)

Inductive pyexc : Type :=
| Exception (msg : string)
| ValueError (msg : string)
| JSONDecodeError
| AttributeError
| TransportError (kind : string).

Inductive pyres (A : Type) : Type :=
| Return (a : A)
| Raise (e : pyexc).
Arguments Return {A} a.
Arguments Raise {A} e.

Definition exc_message (e : pyexc) : option string :=
  match e with
  | Exception m | ValueError m => Some m
  | _ => None
  end.

(** ** Module start-up *)

Definition BASE_URL : string := "https://api.adzuna.com/v1/api".

(** The two module globals read with [os.getenv]. *)
Record config : Type := {
  ADZUNA_APP_ID : option string;
  ADZUNA_APP_KEY : option string
}.

(** [os.getenv(name)]: [None] for a name that is not set. *)
Definition getenv (environ : gmap string string) (name : string) : option string :=
  environ !! name.

Definition missing_credentials_message : string :=
  "Missing Adzuna API credentials. " +:+
  "Please set ADZUNA_APP_ID and ADZUNA_APP_KEY in your .env file.".

(** Importing the module: read both settings, then refuse to go on when
    either is unset or empty.  [environ] is the process environment as
    [load_dotenv()] leaves it.  The [raise] sits at module level, before the
    [FastMCP] instance and [main] exist, so a raised result is a process
    that never serves a request. *)
Definition module_init (environ : gmap string string) : pyres config :=
  let app_id := getenv environ "ADZUNA_APP_ID" in
  let app_key := getenv environ "ADZUNA_APP_KEY" in
  if negb (truthy (of_ostr app_id)) || negb (truthy (of_ostr app_key))
  then Raise (ValueError missing_credentials_message)
  else Return {| ADZUNA_APP_ID := app_id; ADZUNA_APP_KEY := app_key |}.

Definition get_auth_params (cfg : config) : gmap string pyval :=
  <["app_key" := of_ostr (ADZUNA_APP_KEY cfg)]>
    (<["app_id" := of_ostr (ADZUNA_APP_ID cfg)]> ∅).

(** ** The network *)

(** What [client.get(url, params=..., timeout=...)] is called with. *)
Record request : Type := {
  req_url : string;
  req_params : gmap string pyval;
  req_timeout : float
}.

(** What the server reads of a response: [status_code], and [json()],
    which has no value when the body is not JSON. *)
Record response : Type := {
  status_code : Z;
  body_json : option pyval
}.

Definition response_json (r : response) : pyres pyval :=
  match body_json r with
  | Some v => Return v
  | None => Raise JSONDecodeError
  end.

(** A computation that may send requests and may raise: it reads the
    upstream service, extends the log of the requests sent so far, and ends
    in a value or an exception. *)
Definition net (A : Type) : Type :=
  (request → pyres response) → list request → pyres A * list request.

#[global] Instance net_ret : MRet net := λ A a, λ _ log, (Return a, log).

#[global] Instance net_bind : MBind net := λ A B k m, λ up log,
  match m up log with
  | (Return a, log') => k a up log'
  | (Raise e, log') => (Raise e, log')
  end.

Definition raise {A : Type} (e : pyexc) : net A := λ _ log, (Raise e, log).

Definition lift {A : Type} (r : pyres A) : net A := λ _ log, (r, log).

(** [await client.get(...)]: the request goes out, and the service answers
    with a response or the transport fails. *)
Definition client_get (url : string) (params : gmap string pyval) (timeout : float)
  : net response :=
  λ up log,
    let req := {| req_url := url; req_params := params; req_timeout := timeout |} in
    (up req, log ++ [req]).

(** Running a computation from an empty log. *)
Definition run {A : Type} (up : request → pyres response) (m : net A)
  : pyres A * list request :=
  m up [].

(** ** Dictionaries *)

(** [d.update(other)]: every entry of [other] is stored into [d]. *)
Definition dict_update (d other : gmap string pyval) : gmap string pyval :=
  map_fold (λ k v acc, <[k := v]> acc) d other.

(** [v.get(key, default)]; only a [dict] has the method. *)
Definition dict_get (v : pyval) (key : string) (default : pyval) : pyres pyval :=
  match v with
  | PDict d =>
      match d !! key with
      | Some x => Return x
      | None => Return default
      end
  | _ => Raise AttributeError
  end.

(** ** The request dispatcher *)

Section Dispatcher.

(** [str()] of a float, a list or a dict is the interpreter's business;
    the server only ever expects a string here. *)
Variable str_other : pyval → string.

Variable cfg : config.

(** An f-string field [{v}]. *)
Definition format_value (v : pyval) : string :=
  match v with
  | PStr s => s
  | PInt z => str_int z
  | PNone => "None"
  | PBool true => "True"
  | PBool false => "False"
  | _ => str_other v
  end.

Definition api_error_message (status : Z) (display : pyval) : string :=
  "API Error " +:+ str_int status +:+ ": " +:+ format_value display.

Definition make_request (endpoint : string) (params : option (gmap string pyval))
  : net pyval :=
  let auth_params := get_auth_params cfg in
  let auth_params :=
    match params with
    | Some p => if truthy (PDict p) then dict_update auth_params p else auth_params
    | None => auth_params
    end in
  response ← client_get (BASE_URL +:+ "/" +:+ endpoint) auth_params 30%float;
  if negb (Z.eqb (status_code response) 200) then
    error_data ← lift (response_json response);
    display ← lift (dict_get error_data "display" (PStr "Unknown error"));
    raise (Exception (api_error_message (status_code response) display))
  else
    lift (response_json response).

End Dispatcher.

(** ** The tools *)

(** Lines 209-232 of [search_jobs]: the parameter mapping, built entry by
    entry behind truth tests on the arguments. *)
Definition search_jobs_params
    (keywords location : option string) (results_per_page : Z)
    (salary_min salary_max : option Z)
    (full_time part_time contract permanent : option bool)
    (category sort_by : option string) (max_days_old : option Z)
  : gmap string pyval :=
  let params : gmap string pyval :=
    <["results_per_page" := PInt results_per_page]> ∅ in
  let params :=
    if truthy (of_ostr keywords) then <["what" := of_ostr keywords]> params else params in
  let params :=
    if truthy (of_ostr location) then <["where" := of_ostr location]> params else params in
  let params :=
    if truthy (of_oint salary_min) then <["salary_min" := of_oint salary_min]> params else params in
  let params :=
    if truthy (of_oint salary_max) then <["salary_max" := of_oint salary_max]> params else params in
  let params :=
    if truthy (of_obool full_time) then <["full_time" := PStr "1"]> params else params in
  let params :=
    if truthy (of_obool part_time) then <["part_time" := PStr "1"]> params else params in
  let params :=
    if truthy (of_obool contract) then <["contract" := PStr "1"]> params else params in
  let params :=
    if truthy (of_obool permanent) then <["permanent" := PStr "1"]> params else params in
  let params :=
    if truthy (of_ostr category) then <["category" := of_ostr category]> params else params in
  let params :=
    if truthy (of_ostr sort_by) then <["sort_by" := of_ostr sort_by]> params else params in
  let params :=
    if truthy (of_oint max_days_old) then <["max_days_old" := of_oint max_days_old]> params else params in
  params.

Definition search_jobs_endpoint (country : string) (page : Z) : string :=
  "jobs/" +:+ country +:+ "/search/" +:+ str_int page.

Definition get_categories_endpoint (country : string) : string :=
  "jobs/" +:+ country +:+ "/categories".

Definition get_salary_histogram_params (keywords location category : option string)
  : gmap string pyval :=
  let params : gmap string pyval := ∅ in
  let params :=
    if truthy (of_ostr keywords) then <["what" := of_ostr keywords]> params else params in
  let params :=
    if truthy (of_ostr location) then <["where" := of_ostr location]> params else params in
  let params :=
    if truthy (of_ostr category) then <["category" := of_ostr category]> params else params in
  params.

Definition get_top_companies_params (keywords location category : option string)
  : gmap string pyval :=
  let params : gmap string pyval := ∅ in
  let params :=
    if truthy (of_ostr keywords) then <["what" := of_ostr keywords]> params else params in
  let params :=
    if truthy (of_ostr location) then <["where" := of_ostr location]> params else params in
  let params :=
    if truthy (of_ostr category) then <["category" := of_ostr category]> params else params in
  params.

Definition get_geodata_params (keywords location category : option string)
  : gmap string pyval :=
  let params : gmap string pyval := ∅ in
  let params :=
    if truthy (of_ostr keywords) then <["what" := of_ostr keywords]> params else params in
  let params :=
    if truthy (of_ostr location) then <["where" := of_ostr location]> params else params in
  let params :=
    if truthy (of_ostr category) then <["category" := of_ostr category]> params else params in
  params.

Definition get_salary_history_params
    (keywords location category : option string) (months : option Z)
  : gmap string pyval :=
  let params : gmap string pyval := ∅ in
  let params :=
    if truthy (of_ostr keywords) then <["what" := of_ostr keywords]> params else params in
  let params :=
    if truthy (of_ostr location) then <["where" := of_ostr location]> params else params in
  let params :=
    if truthy (of_ostr category) then <["category" := of_ostr category]> params else params in
  let params :=
    if truthy (of_oint months) then <["months" := of_oint months]> params else params in
  params.

Section Tools.

Variable str_other : pyval → string.
Variable cfg : config.

Definition search_jobs
    (country : string) (keywords location : option string)
    (page results_per_page : Z) (salary_min salary_max : option Z)
    (full_time part_time contract permanent : option bool)
    (category sort_by : option string) (max_days_old : option Z)
  : net pyval :=
  let params :=
    search_jobs_params keywords location results_per_page salary_min salary_max
      full_time part_time contract permanent category sort_by max_days_old in
  let endpoint := search_jobs_endpoint country page in
  make_request str_other cfg endpoint (Some params).

Definition get_categories (country : string) : net pyval :=
  let endpoint := get_categories_endpoint country in
  make_request str_other cfg endpoint None.

Definition get_salary_histogram
    (country : string) (keywords location category : option string) : net pyval :=
  let params := get_salary_histogram_params keywords location category in
  let endpoint := "jobs/" +:+ country +:+ "/histogram" in
  make_request str_other cfg endpoint (Some params).

Definition get_top_companies
    (country : string) (keywords location category : option string) : net pyval :=
  let params := get_top_companies_params keywords location category in
  let endpoint := "jobs/" +:+ country +:+ "/top_companies" in
  make_request str_other cfg endpoint (Some params).

Definition get_geodata
    (country : string) (keywords location category : option string) : net pyval :=
  let params := get_geodata_params keywords location category in
  let endpoint := "jobs/" +:+ country +:+ "/geodata" in
  make_request str_other cfg endpoint (Some params).

Definition get_salary_history
    (country : string) (keywords location category : option string)
    (months : option Z) : net pyval :=
  let params := get_salary_history_params keywords location category months in
  let endpoint := "jobs/" +:+ country +:+ "/history" in
  make_request str_other cfg endpoint (Some params).

Definition get_api_version : net pyval :=
  make_request str_other cfg "version" None.

(** A tool invocation as the caller writes it: an argument the caller
    leaves out is [None] here, and the signature's default is bound by
    [call_tool]. *)
Inductive tool_call : Type :=
| SearchJobs (country : string) (keywords location : option string)
    (page results_per_page : option Z) (salary_min salary_max : option Z)
    (full_time part_time contract permanent : option bool)
    (category sort_by : option string) (max_days_old : option Z)
| GetCategories (country : string)
| GetSalaryHistogram (country : string) (keywords location category : option string)
| GetTopCompanies (country : string) (keywords location category : option string)
| GetGeodata (country : string) (keywords location category : option string)
| GetSalaryHistory (country : string) (keywords location category : option string)
    (months : option Z)
| GetApiVersion.

Definition call_tool (c : tool_call) : net pyval :=
  match c with
  | SearchJobs country keywords location page results_per_page salary_min salary_max
      full_time part_time contract permanent category sort_by max_days_old =>
      search_jobs country keywords location
        (default 1 page) (default 10 results_per_page) salary_min salary_max
        full_time part_time contract permanent category sort_by max_days_old
  | GetCategories country => get_categories country
  | GetSalaryHistogram country keywords location category =>
      get_salary_histogram country keywords location category
  | GetTopCompanies country keywords location category =>
      get_top_companies country keywords location category
  | GetGeodata country keywords location category =>
      get_geodata country keywords location category
  | GetSalaryHistory country keywords location category months =>
      get_salary_history country keywords location category months
  | GetApiVersion => get_api_version
  end.

End Tools.

(** ** The request that goes out *)

(** The one request a call of [make_request] sends. *)
Definition outbound (cfg : config) (endpoint : string)
    (params : option (gmap string pyval)) : request :=
  {| req_url := BASE_URL +:+ "/" +:+ endpoint;
     req_params := default ∅ params ∪ get_auth_params cfg;
     req_timeout := 30%float |}.

(** An upstream service that answers every request with [r]. *)
Definition answers (r : response) : request → pyres response :=
  λ _, Return r.

(** The credentials the test suite runs with. *)
Definition test_config : config :=
  {| ADZUNA_APP_ID := Some "test_app_id"; ADZUNA_APP_KEY := Some "test_app_key" |}.

Definition test_environ : gmap string string :=
  <["ADZUNA_APP_KEY" := "test_app_key"]> (<["ADZUNA_APP_ID" := "test_app_id"]> ∅).

(** ** What each tool hands to the dispatcher *)

(** The endpoint and the mapping of a tool invocation, read off the tool
    functions; [call_tool_dispatch] below checks them against the code. *)
Definition tool_endpoint (c : tool_call) : string :=
  match c with
  | SearchJobs country _ _ page _ _ _ _ _ _ _ _ _ _ =>
      search_jobs_endpoint country (default 1 page)
  | GetCategories country => get_categories_endpoint country
  | GetSalaryHistogram country _ _ _ => "jobs/" +:+ country +:+ "/histogram"
  | GetTopCompanies country _ _ _ => "jobs/" +:+ country +:+ "/top_companies"
  | GetGeodata country _ _ _ => "jobs/" +:+ country +:+ "/geodata"
  | GetSalaryHistory country _ _ _ _ => "jobs/" +:+ country +:+ "/history"
  | GetApiVersion => "version"
  end.

Definition tool_params (c : tool_call) : option (gmap string pyval) :=
  match c with
  | SearchJobs _ keywords location _ results_per_page salary_min salary_max
      full_time part_time contract permanent category sort_by max_days_old =>
      Some (search_jobs_params keywords location (default 10 results_per_page)
              salary_min salary_max full_time part_time contract permanent
              category sort_by max_days_old)
  | GetCategories _ => None
  | GetSalaryHistogram _ keywords location category =>
      Some (get_salary_histogram_params keywords location category)
  | GetTopCompanies _ keywords location category =>
      Some (get_top_companies_params keywords location category)
  | GetGeodata _ keywords location category =>
      Some (get_geodata_params keywords location category)
  | GetSalaryHistory _ keywords location category months =>
      Some (get_salary_history_params keywords location category months)
  | GetApiVersion => None
  end.

(** A value that would reach the service as a null or empty entry. *)
Definition null_or_empty (v : pyval) : bool :=
  match v with
  | PNone => true
  | PStr s => str_is_empty s
  | PList l => Nat.eqb (length l) 0
  | PDict d => Nat.eqb (size d) 0
  | _ => false
  end.

(** No entry of the mapping is null or empty. *)
Definition no_null_entries (m : gmap string pyval) : Prop :=
  ∀ k v, m !! k = Some v → null_or_empty v = false.

(** ** Further vocabulary for the properties *)

(** An upstream service that cannot be reached: [client.get] raises [e]. *)
Definition unreachable (e : pyexc) : request → pyres response :=
  λ _, Raise e.

(** The keys [search_jobs] stores under, in the order of its body. *)
Definition search_jobs_keys : list string :=
  ["results_per_page"; "what"; "where"; "salary_min"; "salary_max";
   "full_time"; "part_time"; "contract"; "permanent"; "category"; "sort_by";
   "max_days_old"].

(** The keys the histogram, top-companies and geodata tools store under. *)
Definition filter_keys : list string := ["what"; "where"; "category"].

(** What [if arg: params[key] = arg] leaves under [key] for a string
    argument and for an integer argument. *)
Definition string_entry (arg : option string) : option pyval :=
  match arg with
  | Some s => if str_is_empty s then None else Some (PStr s)
  | None => None
  end.

Definition int_entry (arg : option Z) : option pyval :=
  match arg with
  | Some z => if Z.eqb z 0 then None else Some (PInt z)
  | None => None
  end.

(** A value that is a non-empty string or an integer. *)
Definition is_query_value (v : pyval) : bool :=
  match v with
  | PStr s => negb (str_is_empty s)
  | PInt _ => true
  | _ => false
  end.

Definition all_query_values (m : gmap string pyval) : Prop :=
  ∀ k v, m !! k = Some v → is_query_value v = true.

(** The characters of a string. *)
Fixpoint chars (s : string) : list ascii :=
  match s with
  | EmptyString => []
  | String a s' => a :: chars s'
  end.

(** * Properties *)

(** ** Dictionaries *)

Lemma dict_update_union (d other : gmap string pyval) :
  dict_update d other = other ∪ d.
Proof.
  unfold dict_update.
  apply (map_fold_weak_ind (λ r m, r = m ∪ d)).
  - by rewrite (left_id_L ∅ (∪)).
  - intros k v m r _ ->. apply insert_union_l.
Qed.

Lemma dict_update_lookup (d other : gmap string pyval) (k : string) :
  dict_update d other !! k =
  match other !! k with Some v => Some v | None => d !! k end.
Proof.
  rewrite dict_update_union, lookup_union.
  by destruct (other !! k), (d !! k).
Qed.

Lemma falsy_dict_empty (p : gmap string pyval) :
  truthy (PDict p) = false → p = ∅.
Proof.
  simpl. intros H. apply map_size_empty_iff.
  destruct (size p); [done | discriminate].
Qed.

Lemma get_auth_params_app_id (cfg : config) :
  get_auth_params cfg !! "app_id" = Some (of_ostr (ADZUNA_APP_ID cfg)).
Proof. unfold get_auth_params. by simplify_map_eq. Qed.

Lemma get_auth_params_app_key (cfg : config) :
  get_auth_params cfg !! "app_key" = Some (of_ostr (ADZUNA_APP_KEY cfg)).
Proof. unfold get_auth_params. by simplify_map_eq. Qed.

Lemma get_auth_params_other (cfg : config) (k : string) :
  k ≠ "app_id" → k ≠ "app_key" → get_auth_params cfg !! k = None.
Proof. intros ??. unfold get_auth_params. by simplify_map_eq. Qed.

Lemma get_auth_params_keys (cfg : config) (k : string) :
  is_Some (get_auth_params cfg !! k) ↔ k = "app_id" ∨ k = "app_key".
Proof.
  split.
  - intros Hk.
    destruct (decide (k = "app_id")) as [|Hid]; [by left |].
    destruct (decide (k = "app_key")) as [|Hkey]; [by right |].
    rewrite get_auth_params_other in Hk by done. by destruct Hk.
  - intros [-> | ->].
    + rewrite get_auth_params_app_id. eauto.
    + rewrite get_auth_params_app_key. eauto.
Qed.

(** ** The dispatcher's request and outcome *)

Section DispatcherFacts.

Variable str_other : pyval → string.
Variable cfg : config.
Variable up : request → pyres response.

Lemma merged_params (params : option (gmap string pyval)) :
  match params with
  | Some p =>
      if truthy (PDict p) then dict_update (get_auth_params cfg) p
      else get_auth_params cfg
  | None => get_auth_params cfg
  end = default ∅ params ∪ get_auth_params cfg.
Proof.
  destruct params as [p|]; simpl default.
  - destruct (truthy (PDict p)) eqn:Hp.
    + apply dict_update_union.
    + apply falsy_dict_empty in Hp as ->. by rewrite (left_id_L ∅ (∪)).
  - by rewrite (left_id_L ∅ (∪)).
Qed.

(** Every call sends exactly one request, whatever the reply. *)
Lemma make_request_log endpoint params log :
  snd (make_request str_other cfg endpoint params up log) =
  log ++ [outbound cfg endpoint params].
Proof.
  unfold make_request, mbind, net_bind, client_get, outbound.
  rewrite merged_params. cbn beta zeta.
  destruct (up _) as [r | e]; [| done].
  destruct (negb _); [| done].
  unfold lift, raise.
  destruct (response_json r) as [v | e]; [| done].
  by destruct (dict_get v _ _).
Qed.

Lemma make_request_transport endpoint params log e :
  up (outbound cfg endpoint params) = Raise e →
  fst (make_request str_other cfg endpoint params up log) = Raise e.
Proof.
  intros Hup.
  unfold make_request, mbind, net_bind, client_get.
  rewrite merged_params. cbn beta zeta.
  fold (outbound cfg endpoint params). by rewrite Hup.
Qed.

Lemma make_request_200 endpoint params log r :
  up (outbound cfg endpoint params) = Return r →
  status_code r = 200 →
  fst (make_request str_other cfg endpoint params up log) = response_json r.
Proof.
  intros Hup Hst.
  unfold make_request, mbind, net_bind, client_get.
  rewrite merged_params. cbn beta zeta.
  fold (outbound cfg endpoint params). rewrite Hup, Hst. done.
Qed.

Lemma make_request_not_200 endpoint params log r :
  up (outbound cfg endpoint params) = Return r →
  status_code r ≠ 200 →
  fst (make_request str_other cfg endpoint params up log) =
  match body_json r with
  | None => Raise JSONDecodeError
  | Some (PDict d) =>
      Raise (Exception (api_error_message str_other (status_code r)
                          (default (PStr "Unknown error") (d !! "display"))))
  | Some _ => Raise AttributeError
  end.
Proof.
  intros Hup Hst.
  unfold make_request, mbind, net_bind, client_get.
  rewrite merged_params. cbn beta zeta.
  fold (outbound cfg endpoint params). rewrite Hup.
  apply Z.eqb_neq in Hst. rewrite Hst. simpl negb. cbv iota.
  unfold lift, raise, response_json.
  destruct (body_json r) as [v|]; [| done].
  destruct v; try done. simpl.
  by destruct (_ !! _).
Qed.

End DispatcherFacts.

(** ** Strings *)

Lemma append_assoc (a b c : string) : (a +:+ b) +:+ c = a +:+ b +:+ c.
Proof.
  induction a as [| x a IH]; [done |].
  change (String x ((a +:+ b) +:+ c) = String x (a +:+ b +:+ c)).
  by rewrite IH.
Qed.

Lemma append_nil_r (a : string) : a +:+ "" = a.
Proof.
  induction a as [| x a IH]; [done |].
  change (String x (a +:+ "") = String x a).
  by rewrite IH.
Qed.

Lemma contains_middle (pre needle post : string) :
  contains needle (pre +:+ needle +:+ post).
Proof. by exists pre, post. Qed.

Lemma contains_end (pre needle : string) : contains needle (pre +:+ needle).
Proof. exists pre, "". by rewrite append_nil_r. Qed.

Lemma api_error_message_status (str_other : pyval → string) (status : Z) (display : pyval) :
  contains (str_int status) (api_error_message str_other status display).
Proof. apply contains_middle. Qed.

Lemma api_error_message_display (str_other : pyval → string) (status : Z) (display : pyval) :
  contains (format_value str_other display)
    (api_error_message str_other status display).
Proof.
  unfold api_error_message.
  rewrite <- !append_assoc. apply contains_end.
Qed.

(** ** Success and failure of the dispatcher *)

(** C1, as the code has it: when the service answers, [make_request]
    returns a value exactly when the status is 200 and the body is JSON, and
    the value is then the parsed body itself; with any other status, 201 to
    299 included, the call raises. *)
Theorem make_request_succeeds_iff_200
    (str_other : pyval → string) (cfg : config) (up : request → pyres response)
    (endpoint : string) (params : option (gmap string pyval))
    (log : list request) (r : response) :
  up (outbound cfg endpoint params) = Return r →
  (∀ body, fst (make_request str_other cfg endpoint params up log) = Return body
           ↔ status_code r = 200 ∧ body_json r = Some body)
  ∧ (status_code r ≠ 200 →
     ∃ e, fst (make_request str_other cfg endpoint params up log) = Raise e).
Proof.
  intros Hup. split.
  - intros body. destruct (decide (status_code r = 200)) as [Hst | Hst].
    + rewrite (make_request_200 _ _ _ _ _ _ _ Hup Hst).
      unfold response_json. destruct (body_json r) as [v |].
      * split; [by intros [= ->] | by intros [_ [= ->]]].
      * split; [discriminate | by intros [_ ?]].
    + rewrite (make_request_not_200 _ _ _ _ _ _ _ Hup Hst).
      split; [| by intros [? _]].
      destruct (body_json r) as [[]|]; discriminate.
  - intros Hst. rewrite (make_request_not_200 _ _ _ _ _ _ _ Hup Hst).
    destruct (body_json r) as [[]|]; eauto.
Qed.

Lemma make_request_succeeds_iff_200_witness :
  fst (run (answers {| status_code := 200;
                       body_json := Some (PDict (<["count" := PInt 100]> ∅)) |})
         (make_request (λ _, "") test_config "jobs/gb/search/1"
            (Some (<["what" := PStr "python"]> ∅))))
  = Return (PDict (<["count" := PInt 100]> ∅)).
Proof.
  apply (make_request_succeeds_iff_200 (λ _, "") test_config
           (answers {| status_code := 200;
                       body_json := Some (PDict (<["count" := PInt 100]> ∅)) |})
           "jobs/gb/search/1" (Some (<["what" := PStr "python"]> ∅)) []
           _ eq_refl).
  split; reflexivity.
Defined.

(** A 201 answer with a JSON body is inside [200,299], and the call
    raises. *)
Lemma make_request_201_raises :
  (200 ≤ 201 ≤ 299)
  ∧ fst (run (answers {| status_code := 201; body_json := Some (PDict ∅) |})
           (make_request (λ _, "") test_config "jobs/gb/search/1" None))
    = Raise (Exception "API Error 201: Unknown error").
Proof. split; [lia | vm_compute; reflexivity]. Qed.

(** C2, at the input where the code fails it.  A 500 answer whose body is
    not JSON makes [response.json()] raise on line 96, before the message of
    lines 97-99 is built: the call ends in the decoding error, which has no
    message, so neither the status code nor a placeholder reaches the
    caller.  The same status with the JSON body [{}] takes the path the code
    does have and raises [API Error 500: Unknown error]. *)
Theorem make_request_non_json_error :
  fst (run (answers {| status_code := 500; body_json := None |})
         (make_request (λ _, "") test_config "jobs/gb/search/1" None))
  = Raise JSONDecodeError
  ∧ exc_message JSONDecodeError = None
  ∧ fst (run (answers {| status_code := 500; body_json := Some (PDict ∅) |})
           (make_request (λ _, "") test_config "jobs/gb/search/1" None))
    = Raise (Exception "API Error 500: Unknown error").
Proof. split_and!; [vm_compute; reflexivity | reflexivity | vm_compute; reflexivity]. Qed.

(** ** Conditional entries of a parameter mapping *)

Lemma lookup_cond_insert_eq (c : bool) (k : string) (v : pyval)
    (m : gmap string pyval) :
  (if c then <[k := v]> m else m) !! k = if c then Some v else m !! k.
Proof. destruct c; [apply lookup_insert_eq | done]. Qed.

Lemma lookup_cond_insert_ne (c : bool) (k k' : string) (v : pyval)
    (m : gmap string pyval) :
  k ≠ k' → (if c then <[k := v]> m else m) !! k' = m !! k'.
Proof. intros Hk. destruct c; [by apply lookup_insert_ne | done]. Qed.

Lemma no_null_entries_empty : no_null_entries ∅.
Proof. intros k v Hk. by rewrite lookup_empty in Hk. Qed.

Lemma no_null_entries_insert (k : string) (v : pyval) (m : gmap string pyval) :
  null_or_empty v = false → no_null_entries m → no_null_entries (<[k := v]> m).
Proof.
  intros Hv Hm k' v' Hk'.
  destruct (decide (k = k')) as [<- | Hne].
  - rewrite lookup_insert_eq in Hk'. by injection Hk' as <-.
  - rewrite lookup_insert_ne in Hk' by done. by apply (Hm k').
Qed.

Lemma no_null_entries_cond_insert (c : bool) (k : string) (v : pyval)
    (m : gmap string pyval) :
  (c = true → null_or_empty v = false) → no_null_entries m →
  no_null_entries (if c then <[k := v]> m else m).
Proof. intros Hv Hm. destruct c; [apply no_null_entries_insert; auto | done]. Qed.

Lemma truthy_not_null_or_empty (v : pyval) :
  truthy v = true → null_or_empty v = false.
Proof. destruct v; simpl; try done; by intros ->%negb_true_iff. Qed.

(** Looks a literal key up through a chain of conditional stores. *)
Ltac lookup_params :=
  cbv zeta;
  repeat first
    [ rewrite lookup_cond_insert_eq
    | rewrite lookup_cond_insert_ne by done
    | rewrite lookup_insert_eq
    | rewrite lookup_insert_ne by done
    | rewrite lookup_empty ].

(** Checks every entry of a chain of conditional stores. *)
Ltac forall_params :=
  cbv zeta;
  repeat (apply no_null_entries_cond_insert;
          [first [done | apply truthy_not_null_or_empty] |]);
  repeat (apply no_null_entries_insert; [done |]);
  apply no_null_entries_empty.

Section SearchJobsParams.

Variables (keywords location : option string) (results_per_page : Z)
          (salary_min salary_max : option Z)
          (full_time part_time contract permanent : option bool)
          (category sort_by : option string) (max_days_old : option Z).

Let params : gmap string pyval :=
  search_jobs_params keywords location results_per_page salary_min salary_max
    full_time part_time contract permanent category sort_by max_days_old.

Lemma search_jobs_params_results_per_page :
  params !! "results_per_page" = Some (PInt results_per_page).
Proof. unfold params, search_jobs_params. by lookup_params. Qed.

Lemma search_jobs_params_what :
  params !! "what" =
  if truthy (of_ostr keywords) then Some (of_ostr keywords) else None.
Proof. unfold params, search_jobs_params. by lookup_params. Qed.

Lemma search_jobs_params_where :
  params !! "where" =
  if truthy (of_ostr location) then Some (of_ostr location) else None.
Proof. unfold params, search_jobs_params. by lookup_params. Qed.

Lemma search_jobs_params_salary_min :
  params !! "salary_min" =
  if truthy (of_oint salary_min) then Some (of_oint salary_min) else None.
Proof. unfold params, search_jobs_params. by lookup_params. Qed.

Lemma search_jobs_params_salary_max :
  params !! "salary_max" =
  if truthy (of_oint salary_max) then Some (of_oint salary_max) else None.
Proof. unfold params, search_jobs_params. by lookup_params. Qed.

Lemma search_jobs_params_full_time :
  params !! "full_time" =
  if truthy (of_obool full_time) then Some (PStr "1") else None.
Proof. unfold params, search_jobs_params. by lookup_params. Qed.

Lemma search_jobs_params_part_time :
  params !! "part_time" =
  if truthy (of_obool part_time) then Some (PStr "1") else None.
Proof. unfold params, search_jobs_params. by lookup_params. Qed.

Lemma search_jobs_params_contract :
  params !! "contract" =
  if truthy (of_obool contract) then Some (PStr "1") else None.
Proof. unfold params, search_jobs_params. by lookup_params. Qed.

Lemma search_jobs_params_permanent :
  params !! "permanent" =
  if truthy (of_obool permanent) then Some (PStr "1") else None.
Proof. unfold params, search_jobs_params. by lookup_params. Qed.

Lemma search_jobs_params_category :
  params !! "category" =
  if truthy (of_ostr category) then Some (of_ostr category) else None.
Proof. unfold params, search_jobs_params. by lookup_params. Qed.

Lemma search_jobs_params_sort_by :
  params !! "sort_by" =
  if truthy (of_ostr sort_by) then Some (of_ostr sort_by) else None.
Proof. unfold params, search_jobs_params. by lookup_params. Qed.

Lemma search_jobs_params_max_days_old :
  params !! "max_days_old" =
  if truthy (of_oint max_days_old) then Some (of_oint max_days_old) else None.
Proof. unfold params, search_jobs_params. by lookup_params. Qed.

Lemma search_jobs_params_no_credentials :
  params !! "app_id" = None ∧ params !! "app_key" = None.
Proof. unfold params, search_jobs_params. split; by lookup_params. Qed.

Lemma search_jobs_params_values : no_null_entries params.
Proof. unfold params, search_jobs_params. forall_params. Qed.

End SearchJobsParams.

Section FilterParams.

Variables (keywords location category : option string) (months : option Z).

Lemma get_top_companies_params_eq :
  get_top_companies_params keywords location category =
  get_salary_histogram_params keywords location category.
Proof. reflexivity. Qed.

Lemma get_geodata_params_eq :
  get_geodata_params keywords location category =
  get_salary_histogram_params keywords location category.
Proof. reflexivity. Qed.

Lemma get_salary_histogram_params_what :
  get_salary_histogram_params keywords location category !! "what" =
  if truthy (of_ostr keywords) then Some (of_ostr keywords) else None.
Proof. unfold get_salary_histogram_params. by lookup_params. Qed.

Lemma get_salary_histogram_params_where :
  get_salary_histogram_params keywords location category !! "where" =
  if truthy (of_ostr location) then Some (of_ostr location) else None.
Proof. unfold get_salary_histogram_params. by lookup_params. Qed.

Lemma get_salary_histogram_params_category :
  get_salary_histogram_params keywords location category !! "category" =
  if truthy (of_ostr category) then Some (of_ostr category) else None.
Proof. unfold get_salary_histogram_params. by lookup_params. Qed.

Lemma get_salary_histogram_params_no_credentials :
  get_salary_histogram_params keywords location category !! "app_id" = None
  ∧ get_salary_histogram_params keywords location category !! "app_key" = None.
Proof. unfold get_salary_histogram_params. split; by lookup_params. Qed.

Lemma get_salary_histogram_params_values :
  no_null_entries (get_salary_histogram_params keywords location category).
Proof. unfold get_salary_histogram_params. forall_params. Qed.

Lemma get_salary_history_params_what :
  get_salary_history_params keywords location category months !! "what" =
  if truthy (of_ostr keywords) then Some (of_ostr keywords) else None.
Proof. unfold get_salary_history_params. by lookup_params. Qed.

Lemma get_salary_history_params_where :
  get_salary_history_params keywords location category months !! "where" =
  if truthy (of_ostr location) then Some (of_ostr location) else None.
Proof. unfold get_salary_history_params. by lookup_params. Qed.

Lemma get_salary_history_params_category :
  get_salary_history_params keywords location category months !! "category" =
  if truthy (of_ostr category) then Some (of_ostr category) else None.
Proof. unfold get_salary_history_params. by lookup_params. Qed.

Lemma get_salary_history_params_months :
  get_salary_history_params keywords location category months !! "months" =
  if truthy (of_oint months) then Some (of_oint months) else None.
Proof. unfold get_salary_history_params. by lookup_params. Qed.

Lemma get_salary_history_params_no_credentials :
  get_salary_history_params keywords location category months !! "app_id" = None
  ∧ get_salary_history_params keywords location category months !! "app_key" = None.
Proof. unfold get_salary_history_params. split; by lookup_params. Qed.

Lemma get_salary_history_params_values :
  no_null_entries (get_salary_history_params keywords location category months).
Proof. unfold get_salary_history_params. forall_params. Qed.

End FilterParams.

(** Every mapping a tool builds is free of null and empty entries and of
    the credential keys. *)
Lemma tool_params_values (c : tool_call) (params : gmap string pyval) :
  tool_params c = Some params → no_null_entries params.
Proof.
  destruct c; simpl; intros [= <-].
  - apply search_jobs_params_values.
  - apply get_salary_histogram_params_values.
  - rewrite get_top_companies_params_eq. apply get_salary_histogram_params_values.
  - rewrite get_geodata_params_eq. apply get_salary_histogram_params_values.
  - apply get_salary_history_params_values.
Qed.

Lemma tool_params_no_credentials (c : tool_call) :
  default ∅ (tool_params c) !! "app_id" = None
  ∧ default ∅ (tool_params c) !! "app_key" = None.
Proof.
  destruct c; simpl.
  - apply search_jobs_params_no_credentials.
  - by rewrite !lookup_empty.
  - apply get_salary_histogram_params_no_credentials.
  - rewrite get_top_companies_params_eq.
    apply get_salary_histogram_params_no_credentials.
  - rewrite get_geodata_params_eq.
    apply get_salary_histogram_params_no_credentials.
  - apply get_salary_history_params_no_credentials.
  - by rewrite !lookup_empty.
Qed.

(** The tools are calls of the dispatcher on [tool_endpoint] and
    [tool_params]. *)
Lemma call_tool_dispatch (str_other : pyval → string) (cfg : config) (c : tool_call) :
  call_tool str_other cfg c =
  make_request str_other cfg (tool_endpoint c) (tool_params c).
Proof. by destruct c. Qed.

(** ** The request a tool sends *)

Lemma outbound_lookup (cfg : config) (endpoint : string)
    (params : option (gmap string pyval)) (k : string) :
  req_params (outbound cfg endpoint params) !! k =
  match default ∅ params !! k with
  | Some v => Some v
  | None => get_auth_params cfg !! k
  end.
Proof.
  unfold outbound; simpl req_params. rewrite lookup_union.
  by destruct (default ∅ params !! k), (get_auth_params cfg !! k).
Qed.

Lemma call_tool_log (str_other : pyval → string) (cfg : config)
    (up : request → pyres response) (c : tool_call) :
  snd (run up (call_tool str_other cfg c)) =
  [outbound cfg (tool_endpoint c) (tool_params c)].
Proof.
  unfold run. rewrite call_tool_dispatch. apply (make_request_log _ _ _ _ _ []).
Qed.

Lemma str_int_round_trip (z : Z) : int_str (str_int z) = Some z.
Proof.
  unfold int_str, str_int. rewrite NilZero.isi.
  - simpl. by rewrite DecimalZ.of_to.
  - destruct z; simpl; [done | | done].
    intros [= Hp]. by apply Unsigned.to_uint_nonnil in Hp.
  - destruct z; simpl; [done | done |].
    intros [= Hp]. by apply Unsigned.to_uint_nonnil in Hp.
Qed.

(** ** Optional arguments *)

(** C3: in the mapping of every tool an optional argument that is [None]
    has no entry under its key, and no entry of any mapping is null or
    empty. *)
Theorem unset_arguments_are_omitted :
  (∀ keywords location results_per_page salary_min salary_max
     full_time part_time contract permanent category sort_by max_days_old,
     search_jobs_params None location results_per_page salary_min salary_max
       full_time part_time contract permanent category sort_by max_days_old
       !! "what" = None
     ∧ search_jobs_params keywords None results_per_page salary_min salary_max
         full_time part_time contract permanent category sort_by max_days_old
         !! "where" = None
     ∧ search_jobs_params keywords location results_per_page None salary_max
         full_time part_time contract permanent category sort_by max_days_old
         !! "salary_min" = None
     ∧ search_jobs_params keywords location results_per_page salary_min None
         full_time part_time contract permanent category sort_by max_days_old
         !! "salary_max" = None
     ∧ search_jobs_params keywords location results_per_page salary_min salary_max
         None part_time contract permanent category sort_by max_days_old
         !! "full_time" = None
     ∧ search_jobs_params keywords location results_per_page salary_min salary_max
         full_time None contract permanent category sort_by max_days_old
         !! "part_time" = None
     ∧ search_jobs_params keywords location results_per_page salary_min salary_max
         full_time part_time None permanent category sort_by max_days_old
         !! "contract" = None
     ∧ search_jobs_params keywords location results_per_page salary_min salary_max
         full_time part_time contract None category sort_by max_days_old
         !! "permanent" = None
     ∧ search_jobs_params keywords location results_per_page salary_min salary_max
         full_time part_time contract permanent None sort_by max_days_old
         !! "category" = None
     ∧ search_jobs_params keywords location results_per_page salary_min salary_max
         full_time part_time contract permanent category None max_days_old
         !! "sort_by" = None
     ∧ search_jobs_params keywords location results_per_page salary_min salary_max
         full_time part_time contract permanent category sort_by None
         !! "max_days_old" = None)
  ∧ (∀ keywords location category,
       get_salary_histogram_params None location category !! "what" = None
       ∧ get_salary_histogram_params keywords None category !! "where" = None
       ∧ get_salary_histogram_params keywords location None !! "category" = None)
  ∧ (∀ keywords location category,
       get_top_companies_params None location category !! "what" = None
       ∧ get_top_companies_params keywords None category !! "where" = None
       ∧ get_top_companies_params keywords location None !! "category" = None)
  ∧ (∀ keywords location category,
       get_geodata_params None location category !! "what" = None
       ∧ get_geodata_params keywords None category !! "where" = None
       ∧ get_geodata_params keywords location None !! "category" = None)
  ∧ (∀ keywords location category months,
       get_salary_history_params None location category months !! "what" = None
       ∧ get_salary_history_params keywords None category months !! "where" = None
       ∧ get_salary_history_params keywords location None months !! "category" = None
       ∧ get_salary_history_params keywords location category None !! "months" = None)
  ∧ (∀ (str_other : pyval → string) (cfg : config) (c : tool_call),
       call_tool str_other cfg c =
       make_request str_other cfg (tool_endpoint c) (tool_params c)
       ∧ ∀ params, tool_params c = Some params → no_null_entries params).
Proof.
  split; [| split; [| split; [| split; [| split]]]].
  - intros. repeat split.
    + by rewrite search_jobs_params_what.
    + by rewrite search_jobs_params_where.
    + by rewrite search_jobs_params_salary_min.
    + by rewrite search_jobs_params_salary_max.
    + by rewrite search_jobs_params_full_time.
    + by rewrite search_jobs_params_part_time.
    + by rewrite search_jobs_params_contract.
    + by rewrite search_jobs_params_permanent.
    + by rewrite search_jobs_params_category.
    + by rewrite search_jobs_params_sort_by.
    + by rewrite search_jobs_params_max_days_old.
  - intros. repeat split.
    + by rewrite get_salary_histogram_params_what.
    + by rewrite get_salary_histogram_params_where.
    + by rewrite get_salary_histogram_params_category.
  - intros. rewrite !get_top_companies_params_eq. repeat split.
    + by rewrite get_salary_histogram_params_what.
    + by rewrite get_salary_histogram_params_where.
    + by rewrite get_salary_histogram_params_category.
  - intros. rewrite !get_geodata_params_eq. repeat split.
    + by rewrite get_salary_histogram_params_what.
    + by rewrite get_salary_histogram_params_where.
    + by rewrite get_salary_histogram_params_category.
  - intros. repeat split.
    + by rewrite get_salary_history_params_what.
    + by rewrite get_salary_history_params_where.
    + by rewrite get_salary_history_params_category.
    + by rewrite get_salary_history_params_months.
  - intros. split; [apply call_tool_dispatch | apply tool_params_values].
Qed.

Lemma unset_arguments_are_omitted_witness :
  get_salary_histogram_params (Some "python") None None !! "where" = None
  ∧ null_or_empty (PStr "python") = false.
Proof.
  split.
  - apply (proj1 (proj2 unset_arguments_are_omitted) (Some "python") None None).
  - apply (proj2 (proj2 (proj2 (proj2 (proj2 (proj2 unset_arguments_are_omitted))))
                    (λ _, "") test_config
                    (GetSalaryHistogram "gb" (Some "python") None None))
             (get_salary_histogram_params (Some "python") None None) eq_refl
             "what" (PStr "python")).
    vm_compute. reflexivity.
Defined.

(** ** Boolean flags *)

(** C4: each of the four flags of [search_jobs] is sent as the string
    [1] when it is [True], and has no entry when it is [False] or unset. *)
Theorem boolean_flags_encoding
    (keywords location : option string) (results_per_page : Z)
    (salary_min salary_max : option Z)
    (full_time part_time contract permanent : option bool)
    (category sort_by : option string) (max_days_old : option Z) :
  (search_jobs_params keywords location results_per_page salary_min salary_max
     (Some true) part_time contract permanent category sort_by max_days_old
     !! "full_time" = Some (PStr "1")
   ∧ search_jobs_params keywords location results_per_page salary_min salary_max
       (Some false) part_time contract permanent category sort_by max_days_old
       !! "full_time" = None
   ∧ search_jobs_params keywords location results_per_page salary_min salary_max
       None part_time contract permanent category sort_by max_days_old
       !! "full_time" = None)
  ∧ (search_jobs_params keywords location results_per_page salary_min salary_max
       full_time (Some true) contract permanent category sort_by max_days_old
       !! "part_time" = Some (PStr "1")
     ∧ search_jobs_params keywords location results_per_page salary_min salary_max
         full_time (Some false) contract permanent category sort_by max_days_old
         !! "part_time" = None
     ∧ search_jobs_params keywords location results_per_page salary_min salary_max
         full_time None contract permanent category sort_by max_days_old
         !! "part_time" = None)
  ∧ (search_jobs_params keywords location results_per_page salary_min salary_max
       full_time part_time (Some true) permanent category sort_by max_days_old
       !! "contract" = Some (PStr "1")
     ∧ search_jobs_params keywords location results_per_page salary_min salary_max
         full_time part_time (Some false) permanent category sort_by max_days_old
         !! "contract" = None
     ∧ search_jobs_params keywords location results_per_page salary_min salary_max
         full_time part_time None permanent category sort_by max_days_old
         !! "contract" = None)
  ∧ (search_jobs_params keywords location results_per_page salary_min salary_max
       full_time part_time contract (Some true) category sort_by max_days_old
       !! "permanent" = Some (PStr "1")
     ∧ search_jobs_params keywords location results_per_page salary_min salary_max
         full_time part_time contract (Some false) category sort_by max_days_old
         !! "permanent" = None
     ∧ search_jobs_params keywords location results_per_page salary_min salary_max
         full_time part_time contract None category sort_by max_days_old
         !! "permanent" = None).
Proof.
  repeat split.
  all: first
    [ by rewrite search_jobs_params_full_time
    | by rewrite search_jobs_params_part_time
    | by rewrite search_jobs_params_contract
    | by rewrite search_jobs_params_permanent ].
Qed.

(** ** Numeric filters *)

Lemma search_jobs_request
    (str_other : pyval → string) (cfg : config) (up : request → pyres response)
    (country : string) (keywords location : option string)
    (page results_per_page : Z) (salary_min salary_max : option Z)
    (full_time part_time contract permanent : option bool)
    (category sort_by : option string) (max_days_old : option Z) :
  snd (run up (search_jobs str_other cfg country keywords location page
                 results_per_page salary_min salary_max full_time part_time
                 contract permanent category sort_by max_days_old))
  = [outbound cfg (search_jobs_endpoint country page)
       (Some (search_jobs_params keywords location results_per_page salary_min
                salary_max full_time part_time contract permanent category
                sort_by max_days_old))].
Proof. apply (make_request_log _ _ _ _ _ []). Qed.

Lemma outbound_lookup_param (cfg : config) (endpoint : string)
    (params : gmap string pyval) (k : string) :
  k ≠ "app_id" → k ≠ "app_key" →
  req_params (outbound cfg endpoint (Some params)) !! k = params !! k.
Proof.
  intros Hid Hkey. rewrite outbound_lookup. simpl default.
  destruct (params !! k); [done | by apply get_auth_params_other].
Qed.

(** C7: a numeric filter of [search_jobs] given as 0 is treated as if it
    had not been given: the call is the same computation, the mapping is
    the same, and the query of the request that goes out has no entry under
    the filter's key.  Given as any other integer, the filter is in the
    mapping and in the query of the request under its key, with that very
    value. *)
Theorem zero_numeric_filters_are_omitted
    (str_other : pyval → string) (cfg : config) (up : request → pyres response)
    (country : string) (keywords location : option string)
    (page results_per_page : Z) (salary_min salary_max : option Z)
    (full_time part_time contract permanent : option bool)
    (category sort_by : option string) (max_days_old : option Z) (z : Z) :
  (search_jobs_params keywords location results_per_page (Some 0) salary_max
     full_time part_time contract permanent category sort_by max_days_old
   = search_jobs_params keywords location results_per_page None salary_max
       full_time part_time contract permanent category sort_by max_days_old
   ∧ search_jobs_params keywords location results_per_page (Some 0) salary_max
       full_time part_time contract permanent category sort_by max_days_old
       !! "salary_min" = None
   ∧ (z ≠ 0 →
      search_jobs_params keywords location results_per_page (Some z) salary_max
        full_time part_time contract permanent category sort_by max_days_old
        !! "salary_min" = Some (PInt z)))
  ∧ (search_jobs_params keywords location results_per_page salary_min (Some 0)
       full_time part_time contract permanent category sort_by max_days_old
     = search_jobs_params keywords location results_per_page salary_min None
         full_time part_time contract permanent category sort_by max_days_old
     ∧ search_jobs_params keywords location results_per_page salary_min (Some 0)
         full_time part_time contract permanent category sort_by max_days_old
         !! "salary_max" = None
     ∧ (z ≠ 0 →
        search_jobs_params keywords location results_per_page salary_min (Some z)
          full_time part_time contract permanent category sort_by max_days_old
          !! "salary_max" = Some (PInt z)))
  ∧ (search_jobs_params keywords location results_per_page salary_min salary_max
       full_time part_time contract permanent category sort_by (Some 0)
     = search_jobs_params keywords location results_per_page salary_min salary_max
         full_time part_time contract permanent category sort_by None
     ∧ search_jobs_params keywords location results_per_page salary_min salary_max
         full_time part_time contract permanent category sort_by (Some 0)
         !! "max_days_old" = None
     ∧ (z ≠ 0 →
        search_jobs_params keywords location results_per_page salary_min salary_max
          full_time part_time contract permanent category sort_by (Some z)
          !! "max_days_old" = Some (PInt z)))
  ∧ (search_jobs str_other cfg country keywords location page results_per_page
       (Some 0) salary_max full_time part_time contract permanent category
       sort_by max_days_old
     = search_jobs str_other cfg country keywords location page results_per_page
         None salary_max full_time part_time contract permanent category
         sort_by max_days_old
     ∧ (∃ req,
          snd (run up (search_jobs str_other cfg country keywords location page
                         results_per_page (Some 0) salary_max full_time part_time
                         contract permanent category sort_by max_days_old)) = [req]
          ∧ req_params req !! "salary_min" = None)
     ∧ (z ≠ 0 →
        ∃ req,
          snd (run up (search_jobs str_other cfg country keywords location page
                         results_per_page (Some z) salary_max full_time part_time
                         contract permanent category sort_by max_days_old)) = [req]
          ∧ req_params req !! "salary_min" = Some (PInt z)))
  ∧ (search_jobs str_other cfg country keywords location page results_per_page
       salary_min (Some 0) full_time part_time contract permanent category
       sort_by max_days_old
     = search_jobs str_other cfg country keywords location page results_per_page
         salary_min None full_time part_time contract permanent category
         sort_by max_days_old
     ∧ (∃ req,
          snd (run up (search_jobs str_other cfg country keywords location page
                         results_per_page salary_min (Some 0) full_time part_time
                         contract permanent category sort_by max_days_old)) = [req]
          ∧ req_params req !! "salary_max" = None)
     ∧ (z ≠ 0 →
        ∃ req,
          snd (run up (search_jobs str_other cfg country keywords location page
                         results_per_page salary_min (Some z) full_time part_time
                         contract permanent category sort_by max_days_old)) = [req]
          ∧ req_params req !! "salary_max" = Some (PInt z)))
  ∧ (search_jobs str_other cfg country keywords location page results_per_page
       salary_min salary_max full_time part_time contract permanent category
       sort_by (Some 0)
     = search_jobs str_other cfg country keywords location page results_per_page
         salary_min salary_max full_time part_time contract permanent category
         sort_by None
     ∧ (∃ req,
          snd (run up (search_jobs str_other cfg country keywords location page
                         results_per_page salary_min salary_max full_time part_time
                         contract permanent category sort_by (Some 0))) = [req]
          ∧ req_params req !! "max_days_old" = None)
     ∧ (z ≠ 0 →
        ∃ req,
          snd (run up (search_jobs str_other cfg country keywords location page
                         results_per_page salary_min salary_max full_time part_time
                         contract permanent category sort_by (Some z))) = [req]
          ∧ req_params req !! "max_days_old" = Some (PInt z))).
Proof.
  assert (Hz : z ≠ 0 → truthy (of_oint (Some z)) = true).
  { intros Hz. simpl. by apply negb_true_iff, Z.eqb_neq. }
  split_and!; try reflexivity.
  - by rewrite search_jobs_params_salary_min.
  - intros Hnz. by rewrite search_jobs_params_salary_min, (Hz Hnz).
  - by rewrite search_jobs_params_salary_max.
  - intros Hnz. by rewrite search_jobs_params_salary_max, (Hz Hnz).
  - by rewrite search_jobs_params_max_days_old.
  - intros Hnz. by rewrite search_jobs_params_max_days_old, (Hz Hnz).
  - eexists. split; [apply search_jobs_request |].
    rewrite outbound_lookup_param by done.
    by rewrite search_jobs_params_salary_min.
  - intros Hnz. eexists. split; [apply search_jobs_request |].
    rewrite outbound_lookup_param by done.
    by rewrite search_jobs_params_salary_min, (Hz Hnz).
  - eexists. split; [apply search_jobs_request |].
    rewrite outbound_lookup_param by done.
    by rewrite search_jobs_params_salary_max.
  - intros Hnz. eexists. split; [apply search_jobs_request |].
    rewrite outbound_lookup_param by done.
    by rewrite search_jobs_params_salary_max, (Hz Hnz).
  - eexists. split; [apply search_jobs_request |].
    rewrite outbound_lookup_param by done.
    by rewrite search_jobs_params_max_days_old.
  - intros Hnz. eexists. split; [apply search_jobs_request |].
    rewrite outbound_lookup_param by done.
    by rewrite search_jobs_params_max_days_old, (Hz Hnz).
Qed.

(** [salary_min=50000] and [salary_max=90000]: the one request that goes
    out has both keys, with these values. *)
Lemma zero_numeric_filters_are_omitted_witness :
  ∃ req,
    snd (run (answers {| status_code := 200; body_json := Some (PDict ∅) |})
           (search_jobs (λ _, "") test_config "gb" (Some "python") None 1 10
              (Some 50000) (Some 90000) None None None None None None None))
    = [req]
    ∧ req_params req !! "salary_min" = Some (PInt 50000)
    ∧ req_params req !! "salary_max" = Some (PInt 90000).
Proof.
  destruct (zero_numeric_filters_are_omitted (λ _, "") test_config
              (answers {| status_code := 200; body_json := Some (PDict ∅) |})
              "gb" (Some "python") None 1 10 None (Some 90000)
              None None None None None None None 50000)
    as (_ & _ & _ & (_ & _ & Hmin) & _ & _).
  destruct (zero_numeric_filters_are_omitted (λ _, "") test_config
              (answers {| status_code := 200; body_json := Some (PDict ∅) |})
              "gb" (Some "python") None 1 10 (Some 50000) None
              None None None None None None None 90000)
    as (_ & _ & _ & _ & (_ & _ & Hmax) & _).
  destruct (Hmin ltac:(lia)) as (req & Hlog & Hq).
  destruct (Hmax ltac:(lia)) as (req' & Hlog' & Hq').
  exists req. split; [exact Hlog |]. split; [exact Hq |].
  rewrite Hlog in Hlog'. injection Hlog' as <-. exact Hq'.
Defined.

(** ** The page size *)

(** C10: whatever else is given, the mapping of [search_jobs] has
    [results_per_page] with the value of the argument, which is 10 when the
    caller leaves it out; with every optional argument unset it is the only
    entry. *)
Theorem results_per_page_always_sent
    (country : string) (keywords location : option string)
    (page results_per_page : option Z) (salary_min salary_max : option Z)
    (full_time part_time contract permanent : option bool)
    (category sort_by : option string) (max_days_old : option Z) (n : Z) :
  search_jobs_params keywords location n salary_min salary_max
    full_time part_time contract permanent category sort_by max_days_old
    !! "results_per_page" = Some (PInt n)
  ∧ (∃ params,
       tool_params (SearchJobs country keywords location page results_per_page
                      salary_min salary_max full_time part_time contract permanent
                      category sort_by max_days_old) = Some params
       ∧ params !! "results_per_page" = Some (PInt (default 10 results_per_page)))
  ∧ (∃ params,
       tool_params (SearchJobs country keywords location page None
                      salary_min salary_max full_time part_time contract permanent
                      category sort_by max_days_old) = Some params
       ∧ params !! "results_per_page" = Some (PInt 10))
  ∧ search_jobs_params None None n None None None None None None None None None
    = <["results_per_page" := PInt n]> ∅
  ∧ (∀ (str_other : pyval → string) (cfg : config)
       (up : request → pyres response),
       ∃ req,
         snd (run up (call_tool str_other cfg
                        (SearchJobs country keywords location page results_per_page
                           salary_min salary_max full_time part_time contract
                           permanent category sort_by max_days_old))) = [req]
         ∧ req_params req !! "results_per_page"
           = Some (PInt (default 10 results_per_page))).
Proof.
  split; [apply search_jobs_params_results_per_page |].
  split; [| split; [| split; [reflexivity |]]].
  - eexists. split; [reflexivity |]. apply search_jobs_params_results_per_page.
  - eexists. split; [reflexivity |]. apply search_jobs_params_results_per_page.
  - intros. eexists. split; [apply call_tool_log |].
    rewrite outbound_lookup. simpl default.
    by rewrite search_jobs_params_results_per_page.
Qed.

(** ** The query mapping *)

(** C5: the one request of [make_request] carries a query that has every
    entry of [params] and, under the keys [params] does not have, the
    entries of the credential pair; without [params] (or with an empty
    one) the query is the credential pair itself, which has the keys
    [app_id] and [app_key] and no other. *)
Theorem query_is_credentials_updated_with_params
    (str_other : pyval → string) (cfg : config) (up : request → pyres response)
    (endpoint : string) (params : gmap string pyval) (log : list request) :
  (∃ req,
     snd (make_request str_other cfg endpoint (Some params) up log) = log ++ [req]
     ∧ req_url req = BASE_URL +:+ "/" +:+ endpoint
     ∧ req_params req = params ∪ get_auth_params cfg
     ∧ ∀ k, req_params req !! k =
            match params !! k with
            | Some v => Some v
            | None => get_auth_params cfg !! k
            end)
  ∧ (∃ req,
       snd (make_request str_other cfg endpoint None up log) = log ++ [req]
       ∧ req_url req = BASE_URL +:+ "/" +:+ endpoint
       ∧ req_params req = get_auth_params cfg)
  ∧ (∃ req,
       snd (make_request str_other cfg endpoint (Some ∅) up log) = log ++ [req]
       ∧ req_params req = get_auth_params cfg)
  ∧ get_auth_params cfg !! "app_id" = Some (of_ostr (ADZUNA_APP_ID cfg))
  ∧ get_auth_params cfg !! "app_key" = Some (of_ostr (ADZUNA_APP_KEY cfg))
  ∧ ∀ k, is_Some (get_auth_params cfg !! k) ↔ k = "app_id" ∨ k = "app_key".
Proof.
  split_and!.
  - eexists. split; [apply make_request_log |].
    split_and!; [done | done |].
    intros k. apply (outbound_lookup cfg endpoint (Some params)).
  - eexists. split; [apply make_request_log |].
    split; [done |]. simpl. by rewrite (left_id_L ∅ (∪)).
  - eexists. split; [apply make_request_log |].
    simpl. by rewrite (left_id_L ∅ (∪)).
  - apply get_auth_params_app_id.
  - apply get_auth_params_app_key.
  - apply get_auth_params_keys.
Qed.

(** ** Endpoint paths *)

(** C6: the path of [search_jobs] is [jobs/<country>/search/<page>], where
    the last segment is the decimal numeral of [page], which reads back as
    [page]; it is the path of the request the tool sends. *)
Theorem search_endpoint_path (country : string) (page : Z) :
  search_jobs_endpoint country page
  = "jobs/" +:+ country +:+ "/search/" +:+ str_int page
  ∧ int_str (str_int page) = Some page
  ∧ ∀ (str_other : pyval → string) (cfg : config) (up : request → pyres response)
      keywords location results_per_page salary_min salary_max
      full_time part_time contract permanent category sort_by max_days_old,
      ∃ req,
        snd (run up (search_jobs str_other cfg country keywords location page
                       results_per_page salary_min salary_max full_time part_time
                       contract permanent category sort_by max_days_old)) = [req]
        ∧ req_url req
          = BASE_URL +:+ "/" +:+ "jobs/" +:+ country +:+ "/search/" +:+ str_int page.
Proof.
  split; [reflexivity |]. split; [apply str_int_round_trip |].
  intros. eexists. split; [apply (make_request_log _ _ _ _ _ []) | reflexivity].
Qed.

Example search_endpoint_gb_1 : search_jobs_endpoint "gb" 1 = "jobs/gb/search/1".
Proof. reflexivity. Qed.

Example search_endpoint_us_5 : search_jobs_endpoint "us" 5 = "jobs/us/search/5".
Proof. reflexivity. Qed.

Example search_endpoint_za_120 : search_jobs_endpoint "za" 120 = "jobs/za/search/120".
Proof. reflexivity. Qed.

(** C8: [get_categories] sends one request, to
    [<base>/jobs/<country>/categories], whose query has the keys [app_id]
    and [app_key], holding the two credentials, and no other key. *)
Theorem get_categories_request
    (str_other : pyval → string) (cfg : config) (up : request → pyres response)
    (country : string) :
  ∃ req,
    snd (run up (get_categories str_other cfg country)) = [req]
    ∧ req_url req = BASE_URL +:+ "/" +:+ "jobs/" +:+ country +:+ "/categories"
    ∧ (∀ k, is_Some (req_params req !! k) ↔ k = "app_id" ∨ k = "app_key")
    ∧ dom (req_params req) = ({["app_id"; "app_key"]} : gset string)
    ∧ req_params req !! "app_id" = Some (of_ostr (ADZUNA_APP_ID cfg))
    ∧ req_params req !! "app_key" = Some (of_ostr (ADZUNA_APP_KEY cfg)).
Proof.
  eexists. split; [apply (make_request_log _ _ _ _ _ []) |].
  split; [reflexivity |].
  assert (Hq : req_params (outbound cfg (get_categories_endpoint country) None)
               = get_auth_params cfg).
  { simpl. by rewrite (left_id_L ∅ (∪)). }
  rewrite Hq. split; [apply get_auth_params_keys |].
  split; [| split; [apply get_auth_params_app_id | apply get_auth_params_app_key]].
  unfold get_auth_params. rewrite !dom_insert_L, dom_empty_L. set_solver.
Qed.

Example get_categories_gb_url :
  map req_url (snd (run (answers {| status_code := 200; body_json := Some (PDict ∅) |})
                      (get_categories (λ _, "") test_config "gb")))
  = ["https://api.adzuna.com/v1/api/jobs/gb/categories"].
Proof. vm_compute. reflexivity. Qed.

(** ** Credentials at start-up *)

Lemma missing_credentials_message_descriptive :
  contains "Missing Adzuna API credentials" missing_credentials_message
  ∧ contains "ADZUNA_APP_ID" missing_credentials_message
  ∧ contains "ADZUNA_APP_KEY" missing_credentials_message.
Proof.
  split_and!.
  - by exists "", ". Please set ADZUNA_APP_ID and ADZUNA_APP_KEY in your .env file.".
  - by exists "Missing Adzuna API credentials. Please set ",
              " and ADZUNA_APP_KEY in your .env file.".
  - by exists "Missing Adzuna API credentials. Please set ADZUNA_APP_ID and ",
              " in your .env file.".
Qed.

Lemma truthy_of_ostr (o : option string) :
  truthy (of_ostr o) = true ↔ ∃ s, o = Some s ∧ s ≠ "".
Proof.
  destruct o as [[| a s] |]; simpl; split; try done.
  - intros (s & [= <-] & Hs). done.
  - intros _. by eexists.
  - intros (s & [=] & _).
Qed.

Lemma module_init_missing (environ : gmap string string) :
  getenv environ "ADZUNA_APP_ID" = None ∨ getenv environ "ADZUNA_APP_ID" = Some ""
  ∨ getenv environ "ADZUNA_APP_KEY" = None ∨ getenv environ "ADZUNA_APP_KEY" = Some "" →
  module_init environ = Raise (ValueError missing_credentials_message).
Proof.
  unfold module_init. intros [-> | [-> | [-> | ->]]]; simpl; try done.
  - by destruct (truthy _).
  - by destruct (truthy _).
Qed.

Lemma module_init_present (environ : gmap string string) (app_id app_key : string) :
  getenv environ "ADZUNA_APP_ID" = Some app_id → app_id ≠ "" →
  getenv environ "ADZUNA_APP_KEY" = Some app_key → app_key ≠ "" →
  module_init environ
  = Return {| ADZUNA_APP_ID := Some app_id; ADZUNA_APP_KEY := Some app_key |}.
Proof.
  intros Hid Hid' Hkey Hkey'. unfold module_init. rewrite Hid, Hkey.
  assert (truthy (of_ostr (Some app_id)) = true) as ->
    by (apply truthy_of_ostr; eauto).
  assert (truthy (of_ostr (Some app_key)) = true) as ->
    by (apply truthy_of_ostr; eauto).
  done.
Qed.

(** Every tool invocation sends the credentials of the configuration, since
    no tool stores anything under the credential keys. *)
Lemma call_tool_credentials (str_other : pyval → string) (cfg : config)
    (up : request → pyres response) (c : tool_call) :
  ∃ req,
    snd (run up (call_tool str_other cfg c)) = [req]
    ∧ req_params req !! "app_id" = Some (of_ostr (ADZUNA_APP_ID cfg))
    ∧ req_params req !! "app_key" = Some (of_ostr (ADZUNA_APP_KEY cfg)).
Proof.
  eexists. split; [apply call_tool_log |].
  destruct (tool_params_no_credentials c) as [Hid Hkey].
  rewrite !outbound_lookup, Hid, Hkey.
  split; [apply get_auth_params_app_id | apply get_auth_params_app_key].
Qed.

(** C9: when either credential setting is missing or empty, importing the
    module raises [ValueError] with a message that names both settings, so
    no server is ever created; when both are non-empty the module loads
    with them, and the request of every tool invocation carries both. *)
Theorem credentials_checked_at_startup (environ : gmap string string) :
  (getenv environ "ADZUNA_APP_ID" = None ∨ getenv environ "ADZUNA_APP_ID" = Some ""
   ∨ getenv environ "ADZUNA_APP_KEY" = None ∨ getenv environ "ADZUNA_APP_KEY" = Some "" →
   ∃ msg,
     module_init environ = Raise (ValueError msg)
     ∧ contains "Missing Adzuna API credentials" msg
     ∧ contains "ADZUNA_APP_ID" msg
     ∧ contains "ADZUNA_APP_KEY" msg)
  ∧ (∀ app_id app_key,
       getenv environ "ADZUNA_APP_ID" = Some app_id → app_id ≠ "" →
       getenv environ "ADZUNA_APP_KEY" = Some app_key → app_key ≠ "" →
       ∃ cfg,
         module_init environ = Return cfg
         ∧ ∀ (str_other : pyval → string) (up : request → pyres response)
             (c : tool_call),
             ∃ req,
               snd (run up (call_tool str_other cfg c)) = [req]
               ∧ req_params req !! "app_id" = Some (PStr app_id)
               ∧ req_params req !! "app_key" = Some (PStr app_key)).
Proof.
  split.
  - intros Hmissing. eexists. split; [by apply module_init_missing |].
    apply missing_credentials_message_descriptive.
  - intros app_id app_key Hid Hid' Hkey Hkey'. eexists.
    split; [by apply module_init_present |].
    intros. apply call_tool_credentials.
Qed.

Lemma credentials_checked_at_startup_witness :
  (∃ msg,
     module_init (<["ADZUNA_APP_ID" := "test_app_id"]> ∅) = Raise (ValueError msg)
     ∧ contains "Missing Adzuna API credentials" msg
     ∧ contains "ADZUNA_APP_ID" msg
     ∧ contains "ADZUNA_APP_KEY" msg)
  ∧ (∃ cfg,
       module_init test_environ = Return cfg
       ∧ ∀ (str_other : pyval → string) (up : request → pyres response)
           (c : tool_call),
           ∃ req,
             snd (run up (call_tool str_other cfg c)) = [req]
             ∧ req_params req !! "app_id" = Some (PStr "test_app_id")
             ∧ req_params req !! "app_key" = Some (PStr "test_app_key")).
Proof.
  split.
  - apply (proj1 (credentials_checked_at_startup
                    (<["ADZUNA_APP_ID" := "test_app_id"]> ∅))).
    right. right. left. vm_compute. reflexivity.
  - apply (proj2 (credentials_checked_at_startup test_environ)
             "test_app_id" "test_app_key").
    + vm_compute. reflexivity.
    + discriminate.
    + vm_compute. reflexivity.
    + discriminate.
Defined.

Example module_init_test_environ : module_init test_environ = Return test_config.
Proof. vm_compute. reflexivity. Qed.


(** * Further properties of the dispatcher and the tools *)

(** ** One request per invocation *)

Lemma call_tool_log_from (str_other : pyval → string) (cfg : config)
    (up : request → pyres response) (c : tool_call) (log : list request) :
  snd (call_tool str_other cfg c up log) =
  log ++ [outbound cfg (tool_endpoint c) (tool_params c)].
Proof. rewrite call_tool_dispatch. apply make_request_log. Qed.

(** X1: whatever the service does - answer with any status, answer with a
    body that is not JSON, or not answer at all - a tool invocation adds
    exactly one request to the log, to the tool's endpoint under the base
    URL and with the timeout of 30 seconds: nothing is retried and nothing
    is sent twice. *)
Theorem every_tool_sends_one_request
    (str_other : pyval → string) (cfg : config) (up : request → pyres response)
    (c : tool_call) (log : list request) :
  ∃ req,
    snd (call_tool str_other cfg c up log) = log ++ [req]
    ∧ length (snd (call_tool str_other cfg c up log)) = S (length log)
    ∧ req_url req = BASE_URL +:+ "/" +:+ tool_endpoint c
    ∧ req_timeout req = 30%float.
Proof.
  eexists. split; [apply call_tool_log_from |].
  split; [| done].
  rewrite call_tool_log_from, length_app. simpl. lia.
Qed.

(** ** Outcomes seen through the tools *)

(** X2: when the transport fails, the tool raises the transport's own
    exception, unchanged. *)
Theorem transport_failure_propagates
    (str_other : pyval → string) (cfg : config) (up : request → pyres response)
    (c : tool_call) (log : list request) (e : pyexc) :
  up (outbound cfg (tool_endpoint c) (tool_params c)) = Raise e →
  fst (call_tool str_other cfg c up log) = Raise e.
Proof.
  intros Hup. rewrite call_tool_dispatch. by apply make_request_transport.
Qed.

Lemma transport_failure_propagates_witness :
  fst (run (unreachable (TransportError "ConnectTimeout"))
         (call_tool (λ _, "") test_config
            (SearchJobs "gb" (Some "python") None None None None None
               None None None None None None None)))
  = Raise (TransportError "ConnectTimeout").
Proof.
  apply (transport_failure_propagates (λ _, "") test_config
           (unreachable (TransportError "ConnectTimeout"))
           (SearchJobs "gb" (Some "python") None None None None None
              None None None None None None None) []).
  reflexivity.
Defined.

(** X3: on a 200 answer every tool returns the parsed body as it is, and
    raises the decoding error when the body of that answer is not JSON. *)
Theorem tool_returns_body_unchanged
    (str_other : pyval → string) (cfg : config) (up : request → pyres response)
    (c : tool_call) (log : list request) (r : response) :
  up (outbound cfg (tool_endpoint c) (tool_params c)) = Return r →
  status_code r = 200 →
  (∀ body, body_json r = Some body →
           fst (call_tool str_other cfg c up log) = Return body)
  ∧ (body_json r = None →
     fst (call_tool str_other cfg c up log) = Raise JSONDecodeError).
Proof.
  intros Hup Hst. rewrite call_tool_dispatch.
  rewrite (make_request_200 _ _ _ _ _ _ _ Hup Hst). unfold response_json.
  split; [by intros body -> | by intros ->].
Qed.

Lemma tool_returns_body_unchanged_witness :
  fst (run (answers {| status_code := 200;
                       body_json := Some (PDict (<["count" := PInt 523]> ∅)) |})
         (call_tool (λ _, "") test_config
            (SearchJobs "gb" (Some "python") None None None None None
               None None None None None None None)))
  = Return (PDict (<["count" := PInt 523]> ∅))
  ∧ fst (run (answers {| status_code := 200; body_json := None |})
           (call_tool (λ _, "") test_config (GetCategories "gb")))
    = Raise JSONDecodeError.
Proof.
  split.
  - apply (proj1 (tool_returns_body_unchanged (λ _, "") test_config
                    (answers {| status_code := 200;
                                body_json := Some (PDict (<["count" := PInt 523]> ∅)) |})
                    (SearchJobs "gb" (Some "python") None None None None None
                       None None None None None None None) [] _ eq_refl eq_refl)).
    reflexivity.
  - apply (proj2 (tool_returns_body_unchanged (λ _, "") test_config
                    (answers {| status_code := 200; body_json := None |})
                    (GetCategories "gb") [] _ eq_refl eq_refl)).
    reflexivity.
Defined.

(** X4: the tools add no handling of their own to an upstream error: on an
    answer whose status is not 200 and whose body is a JSON object with a
    string under [display], every tool raises [Exception] with the message
    [API Error <status>: <display>] that the tool docstrings announce. *)
Theorem tool_error_passthrough
    (str_other : pyval → string) (cfg : config) (up : request → pyres response)
    (c : tool_call) (log : list request) (r : response)
    (d : gmap string pyval) (display : string) :
  up (outbound cfg (tool_endpoint c) (tool_params c)) = Return r →
  status_code r ≠ 200 →
  body_json r = Some (PDict d) →
  d !! "display" = Some (PStr display) →
  fst (call_tool str_other cfg c up log)
  = Raise (Exception ("API Error " +:+ str_int (status_code r) +:+ ": " +:+ display)).
Proof.
  intros Hup Hst Hbody Hd. rewrite call_tool_dispatch.
  rewrite (make_request_not_200 _ _ _ _ _ _ _ Hup Hst), Hbody, Hd. done.
Qed.

Lemma tool_error_passthrough_witness :
  fst (run (answers {| status_code := 400;
                       body_json :=
                         Some (PDict (<["display" := PStr "Invalid country"]> ∅)) |})
         (call_tool (λ _, "") test_config (GetCategories "xx")))
  = Raise (Exception "API Error 400: Invalid country").
Proof.
  apply (tool_error_passthrough (λ _, "") test_config
           (answers {| status_code := 400;
                       body_json :=
                         Some (PDict (<["display" := PStr "Invalid country"]> ∅)) |})
           (GetCategories "xx") [] _
           (<["display" := PStr "Invalid country"]> ∅) "Invalid country" eq_refl).
  - simpl. lia.
  - reflexivity.
  - reflexivity.
Defined.

(** X5: the placeholder stands in only for a [display] key that is absent.
    A [display] that is present but is [null], a number or a boolean is
    formatted as Python prints it: [None], the decimal numeral, [True] or
    [False]. *)
Theorem display_scalar_is_formatted
    (str_other : pyval → string) (cfg : config) (up : request → pyres response)
    (endpoint : string) (params : option (gmap string pyval))
    (log : list request) (r : response) (d : gmap string pyval) :
  up (outbound cfg endpoint params) = Return r →
  status_code r ≠ 200 →
  body_json r = Some (PDict d) →
  (d !! "display" = Some PNone →
   fst (make_request str_other cfg endpoint params up log)
   = Raise (Exception ("API Error " +:+ str_int (status_code r) +:+ ": None")))
  ∧ (∀ n, d !! "display" = Some (PInt n) →
     fst (make_request str_other cfg endpoint params up log)
     = Raise (Exception ("API Error " +:+ str_int (status_code r)
                         +:+ ": " +:+ str_int n)))
  ∧ (d !! "display" = Some (PBool true) →
     fst (make_request str_other cfg endpoint params up log)
     = Raise (Exception ("API Error " +:+ str_int (status_code r) +:+ ": True")))
  ∧ (d !! "display" = Some (PBool false) →
     fst (make_request str_other cfg endpoint params up log)
     = Raise (Exception ("API Error " +:+ str_int (status_code r) +:+ ": False"))).
Proof.
  intros Hup Hst Hbody.
  rewrite (make_request_not_200 _ _ _ _ _ _ _ Hup Hst), Hbody.
  split_and!.
  - by intros ->.
  - by intros n ->.
  - by intros ->.
  - by intros ->.
Qed.

Lemma display_scalar_is_formatted_witness :
  fst (run (answers {| status_code := 503;
                       body_json := Some (PDict (<["display" := PNone]> ∅)) |})
         (make_request (λ _, "") test_config "version" None))
  = Raise (Exception "API Error 503: None").
Proof.
  apply (proj1 (display_scalar_is_formatted (λ _, "") test_config
                  (answers {| status_code := 503;
                              body_json := Some (PDict (<["display" := PNone]> ∅)) |})
                  "version" None [] _ (<["display" := PNone]> ∅)
                  eq_refl ltac:(simpl; lia) eq_refl)).
  reflexivity.
Defined.

(** X16: on an answer whose status is not 200 and whose body is a JSON
    object, [make_request] raises [Exception] with the message
    [API Error <status>: <display>], which contains the status code and the
    [display] string; when the object has no [display] key the message ends
    in the placeholder [Unknown error] instead. *)
Theorem api_error_message_for_object_body
    (str_other : pyval → string) (cfg : config) (up : request → pyres response)
    (endpoint : string) (params : option (gmap string pyval))
    (log : list request) (r : response) (d : gmap string pyval) :
  up (outbound cfg endpoint params) = Return r →
  status_code r ≠ 200 →
  body_json r = Some (PDict d) →
  (∀ display,
     d !! "display" = Some (PStr display) →
     ∃ msg, fst (make_request str_other cfg endpoint params up log)
            = Raise (Exception msg)
            ∧ msg = "API Error " +:+ str_int (status_code r) +:+ ": " +:+ display
            ∧ contains (str_int (status_code r)) msg
            ∧ contains display msg)
  ∧ (d !! "display" = None →
     ∃ msg, fst (make_request str_other cfg endpoint params up log)
            = Raise (Exception msg)
            ∧ msg = "API Error " +:+ str_int (status_code r) +:+ ": Unknown error"
            ∧ contains (str_int (status_code r)) msg
            ∧ contains "Unknown error" msg).
Proof.
  intros Hup Hst Hbody.
  rewrite (make_request_not_200 _ _ _ _ _ _ _ Hup Hst), Hbody.
  split.
  - intros display ->. eexists. split; [done |]. simpl default.
    split; [done |]. split.
    + apply api_error_message_status.
    + apply (api_error_message_display str_other _ (PStr display)).
  - intros ->. eexists. split; [done |]. simpl default.
    split; [done |]. split.
    + apply api_error_message_status.
    + apply (api_error_message_display str_other _ (PStr "Unknown error")).
Qed.

Lemma api_error_message_for_object_body_witness :
  (∃ msg,
     fst (run (answers {| status_code := 401;
                          body_json :=
                            Some (PDict (<["display" := PStr "Invalid credentials"]> ∅)) |})
            (make_request (λ _, "") test_config "jobs/gb/search/1" None))
     = Raise (Exception msg)
     ∧ msg = "API Error 401: Invalid credentials"
     ∧ contains "401" msg
     ∧ contains "Invalid credentials" msg)
  ∧ (∃ msg,
       fst (run (answers {| status_code := 429; body_json := Some (PDict ∅) |})
              (make_request (λ _, "") test_config "jobs/gb/search/1" None))
       = Raise (Exception msg)
       ∧ msg = "API Error 429: Unknown error"
       ∧ contains "429" msg
       ∧ contains "Unknown error" msg).
Proof.
  split.
  - apply (proj1 (api_error_message_for_object_body (λ _, "") test_config
                    (answers {| status_code := 401;
                                body_json :=
                                  Some (PDict (<["display" := PStr "Invalid credentials"]> ∅)) |})
                    "jobs/gb/search/1" None [] _
                    (<["display" := PStr "Invalid credentials"]> ∅)
                    eq_refl ltac:(simpl; lia) eq_refl)
             "Invalid credentials").
    reflexivity.
  - apply (proj2 (api_error_message_for_object_body (λ _, "") test_config
                    (answers {| status_code := 429; body_json := Some (PDict ∅) |})
                    "jobs/gb/search/1" None [] _ ∅
                    eq_refl ltac:(simpl; lia) eq_refl)).
    reflexivity.
Defined.

(** ** The keys a tool can send *)

Lemma is_Some_cond_insert (c : bool) (k0 k : string) (v : pyval)
    (m : gmap string pyval) :
  is_Some ((if c then <[k0 := v]> m else m) !! k) → k = k0 ∨ is_Some (m !! k).
Proof.
  destruct c; [| by right].
  destruct (decide (k0 = k)) as [<- | Hne]; [by left |].
  rewrite lookup_insert_ne by done. by right.
Qed.

Lemma is_Some_insert (k0 k : string) (v : pyval) (m : gmap string pyval) :
  is_Some (<[k0 := v]> m !! k) → k = k0 ∨ is_Some (m !! k).
Proof. apply (is_Some_cond_insert true). Qed.

(** Walks a chain of conditional stores down to the empty mapping, leaving
    one goal per key that may have been stored. *)
Ltac keys_of_params H :=
  cbv zeta in H;
  repeat (apply is_Some_cond_insert in H as [-> | H]);
  repeat (apply is_Some_insert in H as [-> | H]);
  try (rewrite lookup_empty in H; by destruct H).

(** X6: [search_jobs] stores under its twelve keys and under no other; the
    page number and the country travel in the path and never in the
    mapping. *)
Theorem search_jobs_params_keys
    (keywords location : option string) (results_per_page : Z)
    (salary_min salary_max : option Z)
    (full_time part_time contract permanent : option bool)
    (category sort_by : option string) (max_days_old : option Z) :
  (∀ k,
     is_Some (search_jobs_params keywords location results_per_page salary_min
                salary_max full_time part_time contract permanent category
                sort_by max_days_old !! k) →
     k ∈ search_jobs_keys)
  ∧ search_jobs_params keywords location results_per_page salary_min
      salary_max full_time part_time contract permanent category
      sort_by max_days_old !! "page" = None
  ∧ search_jobs_params keywords location results_per_page salary_min
      salary_max full_time part_time contract permanent category
      sort_by max_days_old !! "country" = None.
Proof.
  split_and!.
  - intros k Hk. unfold search_jobs_params in Hk. keys_of_params Hk.
    all: unfold search_jobs_keys; set_solver.
  - unfold search_jobs_params. by lookup_params.
  - unfold search_jobs_params. by lookup_params.
Qed.

Lemma search_jobs_params_keys_witness : "salary_max" ∈ search_jobs_keys.
Proof.
  apply (proj1 (search_jobs_params_keys None None 10 None (Some 90000)
                  None None None None None None None) "salary_max").
  vm_compute. eauto.
Defined.

(** X7: the histogram, top-companies and geodata tools store under [what],
    [where] and [category] only, and the history tool under these and
    [months]. *)
Theorem filter_params_keys
    (keywords location category : option string) (months : option Z) (k : string) :
  (is_Some (get_salary_histogram_params keywords location category !! k) →
   k ∈ filter_keys)
  ∧ (is_Some (get_top_companies_params keywords location category !! k) →
     k ∈ filter_keys)
  ∧ (is_Some (get_geodata_params keywords location category !! k) →
     k ∈ filter_keys)
  ∧ (is_Some (get_salary_history_params keywords location category months !! k) →
     k ∈ filter_keys ++ ["months"]).
Proof.
  split_and!; intros Hk.
  - unfold get_salary_histogram_params in Hk. keys_of_params Hk.
    all: unfold filter_keys; set_solver.
  - unfold get_top_companies_params in Hk. keys_of_params Hk.
    all: unfold filter_keys; set_solver.
  - unfold get_geodata_params in Hk. keys_of_params Hk.
    all: unfold filter_keys; set_solver.
  - unfold get_salary_history_params in Hk. keys_of_params Hk.
    all: unfold filter_keys; set_solver.
Qed.

Lemma filter_params_keys_witness :
  "where" ∈ filter_keys ∧ "months" ∈ filter_keys ++ ["months"].
Proof.
  split.
  - apply (proj1 (proj2 (proj2
             (filter_params_keys None (Some "London") None None "where")))).
    vm_compute. eauto.
  - apply (proj2 (proj2 (proj2
             (filter_params_keys None None None (Some 12) "months")))).
    vm_compute. eauto.
Defined.

(** ** String and integer filters *)

Lemma truthy_string_entry (arg : option string) :
  (if truthy (of_ostr arg) then Some (of_ostr arg) else None) = string_entry arg.
Proof. by destruct arg as [[| a s] |]. Qed.

Lemma truthy_int_entry (arg : option Z) :
  (if truthy (of_oint arg) then Some (of_oint arg) else None) = int_entry arg.
Proof. destruct arg as [z |]; [| done]. simpl. by destruct (Z.eqb z 0). Qed.

(** X8: a string argument of [search_jobs] is renamed and stored as it is
    ([keywords] under [what], [location] under [where], [category] and
    [sort_by] under their own names) unless it is unset or the empty
    string, which both leave no entry. *)
Theorem search_jobs_string_filters
    (keywords location : option string) (results_per_page : Z)
    (salary_min salary_max : option Z)
    (full_time part_time contract permanent : option bool)
    (category sort_by : option string) (max_days_old : option Z) :
  search_jobs_params keywords location results_per_page salary_min salary_max
    full_time part_time contract permanent category sort_by max_days_old
    !! "what" = string_entry keywords
  ∧ search_jobs_params keywords location results_per_page salary_min salary_max
      full_time part_time contract permanent category sort_by max_days_old
      !! "where" = string_entry location
  ∧ search_jobs_params keywords location results_per_page salary_min salary_max
      full_time part_time contract permanent category sort_by max_days_old
      !! "category" = string_entry category
  ∧ search_jobs_params keywords location results_per_page salary_min salary_max
      full_time part_time contract permanent category sort_by max_days_old
      !! "sort_by" = string_entry sort_by
  ∧ search_jobs_params (Some "") (Some "") results_per_page salary_min salary_max
      full_time part_time contract permanent (Some "") (Some "") max_days_old
    = search_jobs_params None None results_per_page salary_min salary_max
        full_time part_time contract permanent None None max_days_old.
Proof.
  split_and!.
  - by rewrite search_jobs_params_what, truthy_string_entry.
  - by rewrite search_jobs_params_where, truthy_string_entry.
  - by rewrite search_jobs_params_category, truthy_string_entry.
  - by rewrite search_jobs_params_sort_by, truthy_string_entry.
  - reflexivity.
Qed.

(** X9: the histogram, top-companies and geodata tools treat their three
    string filters the same way: stored as given under [what], [where] and
    [category], and left out when unset or empty. *)
Theorem filter_tools_string_filters (keywords location category : option string) :
  (get_salary_histogram_params keywords location category !! "what"
   = string_entry keywords
   ∧ get_salary_histogram_params keywords location category !! "where"
     = string_entry location
   ∧ get_salary_histogram_params keywords location category !! "category"
     = string_entry category)
  ∧ (get_top_companies_params keywords location category !! "what"
     = string_entry keywords
     ∧ get_top_companies_params keywords location category !! "where"
       = string_entry location
     ∧ get_top_companies_params keywords location category !! "category"
       = string_entry category)
  ∧ (get_geodata_params keywords location category !! "what"
     = string_entry keywords
     ∧ get_geodata_params keywords location category !! "where"
       = string_entry location
     ∧ get_geodata_params keywords location category !! "category"
       = string_entry category).
Proof.
  assert (get_salary_histogram_params keywords location category !! "what"
          = string_entry keywords
          ∧ get_salary_histogram_params keywords location category !! "where"
            = string_entry location
          ∧ get_salary_histogram_params keywords location category !! "category"
            = string_entry category) as Hhist.
  { rewrite get_salary_histogram_params_what, get_salary_histogram_params_where,
      get_salary_histogram_params_category, !truthy_string_entry. done. }
  split; [exact Hhist |]. split; exact Hhist.
Qed.

(** X10: the history tool stores its string filters like the others, and
    [months] as the integer given, except that a [months] of 0 is left out
    like an unset one. *)
Theorem salary_history_filters
    (keywords location category : option string) (months : option Z) :
  get_salary_history_params keywords location category months !! "what"
  = string_entry keywords
  ∧ get_salary_history_params keywords location category months !! "where"
    = string_entry location
  ∧ get_salary_history_params keywords location category months !! "category"
    = string_entry category
  ∧ get_salary_history_params keywords location category months !! "months"
    = int_entry months
  ∧ get_salary_history_params keywords location category (Some 0)
    = get_salary_history_params keywords location category None.
Proof.
  rewrite get_salary_history_params_what, get_salary_history_params_where,
    get_salary_history_params_category, get_salary_history_params_months,
    !truthy_string_entry, truthy_int_entry.
  done.
Qed.

(** ** Tools called without filters *)

Lemma outbound_empty_params (cfg : config) (endpoint : string) :
  req_params (outbound cfg endpoint (Some ∅)) = get_auth_params cfg.
Proof. simpl. by rewrite (left_id_L ∅ (∪)). Qed.

(** X11: a histogram, top-companies, geodata or history call whose filters
    are all unset, or all empty strings with [months] 0, builds the empty
    mapping, and its request carries the credential pair and nothing
    else. *)
Theorem unfiltered_tools_send_only_credentials
    (str_other : pyval → string) (cfg : config) (up : request → pyres response)
    (country : string) :
  (get_salary_histogram_params None None None = ∅
   ∧ get_salary_histogram_params (Some "") (Some "") (Some "") = ∅
   ∧ get_top_companies_params None None None = ∅
   ∧ get_top_companies_params (Some "") (Some "") (Some "") = ∅
   ∧ get_geodata_params None None None = ∅
   ∧ get_geodata_params (Some "") (Some "") (Some "") = ∅
   ∧ get_salary_history_params None None None None = ∅
   ∧ get_salary_history_params (Some "") (Some "") (Some "") (Some 0) = ∅)
  ∧ (∃ req,
       snd (run up (get_salary_histogram str_other cfg country None None None)) = [req]
       ∧ req_params req = get_auth_params cfg)
  ∧ (∃ req,
       snd (run up (get_top_companies str_other cfg country None None None)) = [req]
       ∧ req_params req = get_auth_params cfg)
  ∧ (∃ req,
       snd (run up (get_geodata str_other cfg country None None None)) = [req]
       ∧ req_params req = get_auth_params cfg)
  ∧ (∃ req,
       snd (run up (get_salary_history str_other cfg country None None None None)) = [req]
       ∧ req_params req = get_auth_params cfg).
Proof.
  split; [by split_and! |].
  split_and!; (eexists; split;
    [apply (make_request_log _ _ _ _ _ []) | apply outbound_empty_params]).
Qed.

(** X12: [get_api_version] sends one request, to [<base>/version], whose
    query is the credential pair and nothing else. *)
Theorem get_api_version_request
    (str_other : pyval → string) (cfg : config) (up : request → pyres response) :
  ∃ req,
    snd (run up (get_api_version str_other cfg)) = [req]
    ∧ req_url req = BASE_URL +:+ "/version"
    ∧ req_params req = get_auth_params cfg
    ∧ (∀ k, is_Some (req_params req !! k) ↔ k = "app_id" ∨ k = "app_key").
Proof.
  eexists. split; [apply (make_request_log _ _ _ _ _ []) |].
  split; [reflexivity |].
  assert (Hq : req_params (outbound cfg "version" None) = get_auth_params cfg).
  { simpl. by rewrite (left_id_L ∅ (∪)). }
  rewrite Hq. split; [done | apply get_auth_params_keys].
Qed.

(** ** Every entry that reaches the service *)

Lemma all_query_values_empty : all_query_values ∅.
Proof. intros k v Hk. by rewrite lookup_empty in Hk. Qed.

Lemma all_query_values_insert (k : string) (v : pyval) (m : gmap string pyval) :
  is_query_value v = true → all_query_values m → all_query_values (<[k := v]> m).
Proof.
  intros Hv Hm k' v' Hk'.
  destruct (decide (k = k')) as [<- | Hne].
  - rewrite lookup_insert_eq in Hk'. by injection Hk' as <-.
  - rewrite lookup_insert_ne in Hk' by done. by apply (Hm k').
Qed.

Lemma all_query_values_cond_insert (c : bool) (k : string) (v : pyval)
    (m : gmap string pyval) :
  (c = true → is_query_value v = true) → all_query_values m →
  all_query_values (if c then <[k := v]> m else m).
Proof. intros Hv Hm. destruct c; [apply all_query_values_insert; auto | done]. Qed.

Lemma all_query_values_union (m1 m2 : gmap string pyval) :
  all_query_values m1 → all_query_values m2 → all_query_values (m1 ∪ m2).
Proof.
  intros H1 H2 k v Hk. apply lookup_union_Some_raw in Hk as [Hk | [_ Hk]].
  - by apply (H1 k).
  - by apply (H2 k).
Qed.

Lemma truthy_ostr_query_value (arg : option string) :
  truthy (of_ostr arg) = true → is_query_value (of_ostr arg) = true.
Proof. by destruct arg. Qed.

Lemma truthy_oint_query_value (arg : option Z) :
  truthy (of_oint arg) = true → is_query_value (of_oint arg) = true.
Proof. by destruct arg. Qed.

Ltac query_values :=
  cbv zeta;
  repeat (apply all_query_values_cond_insert;
          [first [done | apply truthy_ostr_query_value
                 | apply truthy_oint_query_value] |]);
  repeat (apply all_query_values_insert; [done |]);
  apply all_query_values_empty.

Lemma tool_params_query_values (c : tool_call) :
  all_query_values (default ∅ (tool_params c)).
Proof.
  destruct c; simpl.
  - unfold search_jobs_params. query_values.
  - apply all_query_values_empty.
  - unfold get_salary_histogram_params. query_values.
  - unfold get_top_companies_params. query_values.
  - unfold get_geodata_params. query_values.
  - unfold get_salary_history_params. query_values.
  - apply all_query_values_empty.
Qed.

Lemma module_init_credentials (environ : gmap string string) (cfg : config) :
  module_init environ = Return cfg →
  truthy (of_ostr (ADZUNA_APP_ID cfg)) = true
  ∧ truthy (of_ostr (ADZUNA_APP_KEY cfg)) = true.
Proof.
  unfold module_init.
  destruct (truthy (of_ostr (getenv environ "ADZUNA_APP_ID"))) eqn:Hid;
    destruct (truthy (of_ostr (getenv environ "ADZUNA_APP_KEY"))) eqn:Hkey;
    simpl; intros [= <-]; done.
Qed.

(** X13: once the module has loaded, every entry of the query of every
    tool's request - credentials included - is a non-empty string or an
    integer: no null, no empty string, and no boolean, float, list or dict
    is ever put on the wire. *)
Theorem loaded_server_sends_plain_values
    (environ : gmap string string) (cfg : config) :
  module_init environ = Return cfg →
  ∀ (str_other : pyval → string) (up : request → pyres response) (c : tool_call),
    ∃ req,
      snd (run up (call_tool str_other cfg c)) = [req]
      ∧ all_query_values (req_params req).
Proof.
  intros [Hid Hkey]%module_init_credentials str_other up c.
  eexists. split; [apply call_tool_log |].
  unfold outbound; simpl req_params. apply all_query_values_union.
  - apply tool_params_query_values.
  - unfold get_auth_params.
    apply all_query_values_insert; [by apply truthy_ostr_query_value |].
    apply all_query_values_insert; [by apply truthy_ostr_query_value |].
    apply all_query_values_empty.
Qed.

Lemma loaded_server_sends_plain_values_witness :
  ∃ req,
    snd (run (answers {| status_code := 200; body_json := Some (PDict ∅) |})
           (call_tool (λ _, "") test_config
              (SearchJobs "gb" (Some "python") None None None (Some 50000) None
                 (Some true) None None None None None None))) = [req]
    ∧ all_query_values (req_params req).
Proof.
  apply (loaded_server_sends_plain_values test_environ test_config).
  vm_compute. reflexivity.
Defined.

(** ** Distinct searches, distinct paths *)

Lemma chars_app (a b : string) : chars (a +:+ b) = chars a ++ chars b.
Proof.
  induction a as [| x a IH]; [done |].
  change (x :: chars (a +:+ b) = x :: (chars a ++ chars b)). by rewrite IH.
Qed.

Lemma chars_inj (a b : string) : chars a = chars b → a = b.
Proof.
  revert b. induction a as [| x a IH]; intros [| y b]; simpl; try done.
  intros [= -> Hab]. by rewrite (IH b Hab).
Qed.

Lemma slash_not_in_digits (d : Decimal.uint) :
  "/"%char ∉ chars (NilEmpty.string_of_uint d).
Proof.
  induction d; simpl; [apply not_elem_of_nil | ..];
    (apply not_elem_of_cons; split; [discriminate | done]).
Qed.

Lemma slash_not_in_str_int (z : Z) : "/"%char ∉ chars (str_int z).
Proof.
  assert (Hu : ∀ d, "/"%char ∉ chars (NilZero.string_of_uint d)).
  { intros d. destruct d; try apply slash_not_in_digits.
    simpl. apply not_elem_of_cons. split; [discriminate | apply not_elem_of_nil]. }
  unfold str_int, NilZero.string_of_int. destruct (Z.to_int z) as [d | d].
  - apply Hu.
  - change ("/"%char ∉ "-"%char :: chars (NilZero.string_of_uint d)).
    apply not_elem_of_cons. split; [discriminate | apply Hu].
Qed.

Lemma str_int_inj (z z' : Z) : str_int z = str_int z' → z = z'.
Proof.
  intros Heq. assert (Some z = Some z') as [= ->]; [| done].
  by rewrite <- !str_int_round_trip, Heq.
Qed.

(** X14: the search path determines the country and the page: two calls
    of [search_jobs] build the same path only when they agree on both. *)
Theorem search_endpoint_injective (country country' : string) (page page' : Z) :
  search_jobs_endpoint country page = search_jobs_endpoint country' page' →
  country = country' ∧ page = page'.
Proof.
  unfold search_jobs_endpoint. intros Heq.
  apply (f_equal chars) in Heq. rewrite !chars_app in Heq.
  apply app_inv_head in Heq.
  change (chars "/search/") with (chars "/search" ++ ["/"%char]) in Heq.
  rewrite <- !(assoc_L (++)) in Heq. simpl ([_] ++ _) in Heq.
  rewrite !(assoc_L (++) (chars _) (chars "/search")) in Heq.
  apply not_elem_of_app_cons_inv_r in Heq as (Hc & _ & Hp);
    [| apply slash_not_in_str_int | apply slash_not_in_str_int].
  apply app_inv_tail in Hc. split.
  - by apply chars_inj.
  - by apply str_int_inj, chars_inj.
Qed.

Lemma search_endpoint_injective_witness : "gb" = "gb" ∧ 120 = 120.
Proof.
  apply (search_endpoint_injective "gb" "gb" 120 120). reflexivity.
Defined.

(** ** What a loaded module holds *)

(** X15: the module loads exactly when both settings are present and
    non-empty, and the configuration it then holds is the two values as the
    environment has them; the only exception start-up ever raises is the
    [ValueError] about missing credentials. *)
Theorem module_init_loads_iff (environ : gmap string string) (cfg : config) :
  (module_init environ = Return cfg
   ↔ ∃ app_id app_key,
       getenv environ "ADZUNA_APP_ID" = Some app_id ∧ app_id ≠ ""
       ∧ getenv environ "ADZUNA_APP_KEY" = Some app_key ∧ app_key ≠ ""
       ∧ cfg = {| ADZUNA_APP_ID := Some app_id; ADZUNA_APP_KEY := Some app_key |})
  ∧ (∀ e, module_init environ = Raise e →
          e = ValueError missing_credentials_message).
Proof.
  split; [split |].
  - intros Hinit.
    destruct (module_init_credentials _ _ Hinit) as [Hid Hkey].
    unfold module_init in Hinit.
    destruct (negb _ || negb _); [discriminate |].
    injection Hinit as <-. simpl in Hid, Hkey.
    apply truthy_of_ostr in Hid as (app_id & Hid & Hid').
    apply truthy_of_ostr in Hkey as (app_key & Hkey & Hkey').
    exists app_id, app_key. by rewrite Hid, Hkey.
  - intros (app_id & app_key & Hid & Hid' & Hkey & Hkey' & ->).
    by apply module_init_present.
  - intros e. unfold module_init.
    destruct (negb _ || negb _); [by intros [= <-] | discriminate].
Qed.

Lemma module_init_loads_iff_witness :
  ∃ app_id app_key,
    getenv test_environ "ADZUNA_APP_ID" = Some app_id ∧ app_id ≠ ""
    ∧ getenv test_environ "ADZUNA_APP_KEY" = Some app_key ∧ app_key ≠ ""
    ∧ test_config = {| ADZUNA_APP_ID := Some app_id; ADZUNA_APP_KEY := Some app_key |}.
Proof.
  apply (proj1 (proj1 (module_init_loads_iff test_environ test_config))).
  vm_compute. reflexivity.
Defined.
